(** * Getscreened, Task 2: the document ingestion and context-retrieval pipeline

    A shallow embedding of [src/Task 2/app.py]: the classes
    [DuckDuckGoSearch], [DocumentLoader] and [HuggingFaceQA].

    Modelling choices.
    - A Python [str] is a [string]; [len], slicing, [endswith] and
      [str.join] are written out below.  Every string operation the
      program uses is uniform in the characters, so one [ascii] stands for
      one code point.
    - A Python [int] is a [Z] ([max_chars], [max_results]); [len] is a
      [nat], compared with an [int] through [Z.of_nat].
    - A [dict] is a [gmap] with string keys.
    - Exceptions: a computation either returns ([Ok]) or raises
      ([Raise msg], where [msg] is [str(e)]).  Methods run in a state and
      exception monad [M] over the [World]: the loader object, the file
      system and the trace of observable events ([print], index builds).
      Mutations made before an exception is raised stay, as in Python.
    - The third-party services (search provider, file parsers, embedding
      model, nearest-neighbour search, UTF-8 decoding, temporary file
      names) are the fields of a record [Collaborators]; every theorem
      holds for all of them.  File-system primitives ([NamedTemporaryFile],
      [write], [os.path.exists], [os.remove]) follow their functional
      specification on a map from paths to contents.
    - The confidence score is a Python [float]; only the literal [0.0] and
      the values handed back by the model occur, and they are carried as
      rationals. *)

From Stdlib Require Import ZArith QArith String Ascii List Lia.
From stdpp Require Import gmap strings list.

Close Scope Q_scope.
Open Scope Z_scope.
Open Scope nat_scope.

(** ** Python strings *)

Module Py.

(** [len(s)] *)
Definition len (s : string) : nat := String.length s.

(** [s[:n]] for an [int] bound: a negative bound counts from the end. *)
Definition slice_to (s : string) (n : Z) : string :=
  if (n <? 0)%Z
  then String.substring 0 (Z.to_nat (Z.of_nat (len s) + n)) s
  else String.substring 0 (Z.to_nat n) s.

(** [s[i:]] for a natural index. *)
Fixpoint slice_from (s : string) (i : nat) : string :=
  match i, s with
  | O, _ => s
  | S i', String _ s' => slice_from s' i'
  | S _, EmptyString => EmptyString
  end.

(** [s.endswith(suffix)] *)
Definition endswith (s suffix : string) : bool :=
  (len suffix <=? len s) &&
  String.eqb (slice_from s (len s - len suffix)) suffix.

(** [sep.join(parts)] *)
Definition join (sep : string) (parts : list string) : string :=
  String.concat sep parts.

(** [s.rfind(c)] for a single character: the last index, or [-1]. *)
Fixpoint rfind_from (c : ascii) (s : string) (i : Z) (found : Z) : Z :=
  match s with
  | EmptyString => found
  | String a s' => rfind_from c s' (i + 1)%Z (if Ascii.eqb a c then i else found)
  end.

Definition rfind (c : ascii) (s : string) : Z := rfind_from c s 0%Z (-1)%Z.

Fixpoint all_dots (s : string) : bool :=
  match s with
  | EmptyString => true
  | String a s' => Ascii.eqb a "."%char && all_dots s'
  end.

(** [os.path.splitext(p)[1]] (posixpath): the extension starts at the
    last dot of the last path component, unless that component has
    nothing but dots before it. *)
Definition splitext_ext (p : string) : string :=
  let sepIndex := rfind "/"%char p in
  let dotIndex := rfind "."%char p in
  if (sepIndex <? dotIndex)%Z then
    let filenameIndex := Z.to_nat (sepIndex + 1) in
    let stem := String.substring filenameIndex (Z.to_nat dotIndex - filenameIndex) p in
    if all_dots stem then EmptyString else slice_from p (Z.to_nat dotIndex)
  else EmptyString.

Definition newline : string := String (ascii_of_nat 10) EmptyString.

End Py.

(** ** Exceptions and the method monad *)

Inductive outcome (A : Type) : Type :=
| Ok (a : A)
| Raise (msg : string).
Arguments Ok {A} a.
Arguments Raise {A} msg.

(** [langchain] documents: only [page_content] is read by the program. *)
Record Document := { page_content : string }.

(** [HuggingFaceEmbeddings()], built with its default model. *)
Record HuggingFaceEmbeddings := { model_name : string }.

(** A [FAISS] store holds the documents it was built from and the
    embedding function; the vectors themselves are not modelled. *)
Record FAISS := {
  docstore : list Document;
  embedding_function : HuggingFaceEmbeddings;
}.

(** The attributes of a [DocumentLoader] that change after [__init__]. *)
Record DocumentLoader := {
  current_document : string;
  document_source : string;
  vector_store : option FAISS;
  embeddings : option HuggingFaceEmbeddings;
}.

Inductive Event :=
| Printed (line : string)
| IndexBuilt (store : FAISS).

Record World := {
  self : DocumentLoader;
  fs : gmap string (list Byte.byte);
  events : list Event;
}.

Definition M (A : Type) : Type := World -> outcome A * World.

Definition ret {A} (a : A) : M A := fun w => (Ok a, w).

Definition raise {A} (msg : string) : M A := fun w => (Raise msg, w).

Definition bind {A B} (m : M A) (k : A -> M B) : M B :=
  fun w =>
    match m w with
    | (Ok a, w') => k a w'
    | (Raise msg, w') => (Raise msg, w')
    end.

(** A call into a collaborator that touches nothing of the world. *)
Definition call {A} (r : outcome A) : M A := fun w => (r, w).

(** [try: body / except Exception as e: handler(str(e))] *)
Definition try_except {A} (body : M A) (handler : string -> M A) : M A :=
  fun w =>
    match body w with
    | (Ok a, w') => (Ok a, w')
    | (Raise msg, w') => handler msg w'
    end.

(** [try: body / finally: cleanup]; an exception of the cleanup replaces
    the outcome of the body. *)
Definition try_finally {A} (body : M A) (cleanup : M unit) : M A :=
  fun w =>
    match body w with
    | (r, w') =>
        match cleanup w' with
        | (Ok _, w'') => (r, w'')
        | (Raise msg, w'') => (Raise msg, w'')
        end
    end.

Declare Scope py_scope.
Delimit Scope py_scope with py.
Notation "'let*' x ':=' m 'in' k" := (bind m (fun x => k))
  (at level 10, x name, m at level 100, k at level 200) : py_scope.
Notation "m1 ';;' m2" := (bind m1 (fun _ => m2))
  (at level 100, m2 at level 200, right associativity) : py_scope.
Open Scope py_scope.

Definition get_self : M DocumentLoader := fun w => (Ok (self w), w).

Definition set_self (d : DocumentLoader) : M unit :=
  fun w => (Ok tt, {| self := d; fs := fs w; events := events w |}).

Definition emit (e : Event) : M unit :=
  fun w => (Ok tt, {| self := self w; fs := fs w; events := events w ++ [e] |}).

(** [print(line)] *)
Definition print (line : string) : M unit := emit (Printed line).

(** [self.current_document = v], and likewise for the other attributes. *)
Definition set_current_document (v : string) : M unit :=
  let* d := get_self in
  set_self {| current_document := v; document_source := document_source d;
              vector_store := vector_store d; embeddings := embeddings d |}.

Definition set_document_source (v : string) : M unit :=
  let* d := get_self in
  set_self {| current_document := current_document d; document_source := v;
              vector_store := vector_store d; embeddings := embeddings d |}.

Definition set_vector_store (v : option FAISS) : M unit :=
  let* d := get_self in
  set_self {| current_document := current_document d; document_source := document_source d;
              vector_store := v; embeddings := embeddings d |}.

Definition set_embeddings (v : option HuggingFaceEmbeddings) : M unit :=
  let* d := get_self in
  set_self {| current_document := current_document d; document_source := document_source d;
              vector_store := vector_store d; embeddings := v |}.

(** ** Collaborators *)

(** One search hit: the [dict] the provider yields. *)
Abbreviation SearchResult := (gmap string string).

Record UploadedFile := {
  name : string;
  getvalue : list Byte.byte;
}.

Inductive Loader :=
| UnstructuredPDFLoader (file_path : string)
| UnstructuredWordDocumentLoader (file_path : string)
| TextLoader (file_path : string).

Definition loader_path (loader : Loader) : string :=
  match loader with
  | UnstructuredPDFLoader p | UnstructuredWordDocumentLoader p | TextLoader p => p
  end.

Record Collaborators := {
  (** [list(DDGS().text(query, max_results=..., region='wt-wt', safesearch='on'))] *)
  ddgs_text : string -> Z -> outcome (list SearchResult);
  (** [bytes.decode("utf-8")] *)
  decode_utf8 : list Byte.byte -> outcome string;
  (** directory, prefix and random part of a fresh temporary file name *)
  mkstemp : gmap string (list Byte.byte) -> string;
  (** what a loader's [load()] makes of the file contents it finds *)
  parse : Loader -> option (list Byte.byte) -> outcome (list Document);
  (** [HuggingFaceEmbeddings()] *)
  new_embeddings : outcome HuggingFaceEmbeddings;
  (** embedding of the passages while an index is built *)
  embed_documents : HuggingFaceEmbeddings -> list string -> outcome unit;
  (** [store.similarity_search(query, k)] *)
  similarity_search : FAISS -> string -> nat -> outcome (list Document);
}.

(** ** File-system primitives *)

Definition set_fs (f : gmap string (list Byte.byte)) : M unit :=
  fun w => (Ok tt, {| self := self w; fs := f; events := events w |}).

Definition get_fs : M (gmap string (list Byte.byte)) := fun w => (Ok (fs w), w).

(** [tempfile.NamedTemporaryFile(delete=False, suffix=suffix)]: creates an
    empty file and yields its name. *)
Definition NamedTemporaryFile (E : Collaborators) (suffix : string) : M string :=
  let* f := get_fs in
  let tmp_name := mkstemp E f +:+ suffix in
  set_fs (<[tmp_name := []]> f);;
  ret tmp_name.

(** [tmp.write(data)] on the file just created *)
Definition write (tmp_name : string) (data : list Byte.byte) : M unit :=
  let* f := get_fs in
  set_fs (<[tmp_name := data]> f).

(** [os.path.exists(path)] *)
Definition os_path_exists (path : string) : M bool :=
  let* f := get_fs in
  ret (bool_decide (is_Some (f !! path))).

(** [os.remove(path)] *)
Definition os_remove (path : string) : M unit :=
  let* f := get_fs in
  match f !! path with
  | Some _ => set_fs (delete path f)
  | None => raise ("[Errno 2] No such file or directory: " +:+ path)
  end.

(** [loader.load()] *)
Definition load (E : Collaborators) (loader : Loader) : M (list Document) :=
  let* f := get_fs in
  call (parse E loader (f !! loader_path loader)).

(** [FAISS.from_documents(docs, embeddings)] *)
Definition FAISS_from_documents (E : Collaborators)
    (docs : list Document) (emb : HuggingFaceEmbeddings) : M FAISS :=
  call (embed_documents E emb (map page_content docs));;
  let store := {| docstore := docs; embedding_function := emb |} in
  emit (IndexBuilt store);;
  ret store.

(** [enumerate(xs, start)] *)
Fixpoint enumerate {A} (xs : list A) (start : nat) : list (nat * A) :=
  match xs with
  | [] => []
  | x :: xs' => (start, x) :: enumerate xs' (S start)
  end.

(** ** class DuckDuckGoSearch *)

Module DuckDuckGoSearch.

Definition no_results : string :=
  "No results found. Try modifying your search query.".

(** [result.get(...)] with its fallbacks *)
Definition get_title (result : SearchResult) : string :=
  default "No title available" (result !! "title").

Definition get_snippet (result : SearchResult) : string :=
  default (default "No description available" (result !! "snippet"))
          (result !! "body").

Definition get_url (result : SearchResult) : string :=
  default "No link available" (result !! "href").

(** The f-string appended to [formatted_results] for one hit. *)
Definition format_result (result : SearchResult) : string :=
  let title := get_title result in
  let snippet := get_snippet result in
  let url := get_url result in
  title +:+ Py.newline +:+
  "Summary: " +:+ snippet +:+ Py.newline +:+
  "URL: " +:+ url +:+ Py.newline.

Definition search (E : Collaborators) (query : string) (max_results : Z) : M string :=
  try_except
    (let* search_results := call (ddgs_text E query max_results) in
     match search_results with
     | [] => ret no_results
     | _ :: _ =>
         let formatted_results :=
           map (fun '(idx, result) => format_result result)
               (enumerate search_results 1) in
         ret (Py.join (Py.newline +:+ Py.newline) formatted_results)
     end)
    (fun e =>
       let error_msg := "Search error: " +:+ e in
       print ("DuckDuckGo search error: " +:+ e);;
       ret error_msg).

End DuckDuckGoSearch.

(** ** class DocumentLoader *)

Definition default_documents : gmap string string :=
  {[ "solar_energy" := "Solar energy is one of the most abundant renewable resources available today. It is generated by converting sunlight into electricity. Solar panels, also known as photovoltaic panels, capture sunlight and convert it into usable electricity through the photovoltaic effect. This clean energy source produces no emissions during operation and is becoming increasingly cost-effective. Solar power can be used in large utility-scale installations or small residential systems, making it versatile for various applications.";
     "ai_ethics" := "AI Ethics encompasses the moral principles and guidelines governing the development and use of artificial intelligence systems. Key concerns include privacy, bias and fairness, transparency, accountability, and the impact on employment. As AI becomes more integrated into daily life, ensuring these systems are designed with ethical considerations becomes increasingly important. Some propose regulatory frameworks while others advocate for industry self-regulation. The field continues to evolve as new AI capabilities emerge.";
     "renewable_energy" := "Renewable energy comes from naturally replenished sources such as sunlight, wind, water, and geothermal heat. Unlike fossil fuels, renewable energy sources won't deplete over time. Major types include solar, wind, hydroelectric, biomass, and geothermal power. The renewable energy sector is growing rapidly worldwide as countries seek to reduce carbon emissions and combat climate change. Technological advances continue to make renewable energy increasingly cost-competitive with conventional energy sources." ]}.

(** [DocumentLoader.__init__] *)
Definition init : DocumentLoader :=
  {| current_document := "";
     document_source := "None";
     vector_store := None;
     embeddings := None |}.

Definition get_current_document : M string :=
  let* d := get_self in ret (current_document d).

Definition get_document_source : M string :=
  let* d := get_self in ret (document_source d).

Definition ellipsis : string := "...".

Section Loader.

Variable E : Collaborators.

Definition load_from_text (text : string) : M string :=
  set_current_document text;;
  set_document_source "User input";;
  get_current_document.

(** The body of the outer [try] of [load_from_file]. *)
Definition load_from_file_try (file : UploadedFile) : M string :=
  if Py.endswith (name file) ".txt" || Py.endswith (name file) ".md" then
    let* text := call (decode_utf8 E (getvalue file)) in
    set_current_document text;;
    set_document_source (name file);;
    get_current_document
  else
    let* temp_path :=
      (let* tmp := NamedTemporaryFile E (Py.splitext_ext (name file)) in
       write tmp (getvalue file);;
       ret tmp) in
    try_finally
      (let loader :=
         if Py.endswith temp_path ".pdf" then UnstructuredPDFLoader temp_path
         else if Py.endswith temp_path ".docx" then UnstructuredWordDocumentLoader temp_path
         else TextLoader temp_path in
       let* docs := load E loader in
       let text_content :=
         Py.join (Py.newline +:+ Py.newline) (map page_content docs) in
       (if 100 <? Py.len text_content then
          let* emb := call (new_embeddings E) in
          set_embeddings (Some emb);;
          let* store := FAISS_from_documents E docs emb in
          set_vector_store (Some store)
        else ret tt);;
       set_current_document text_content;;
       set_document_source (name file))
      (let* found := os_path_exists temp_path in
       if found then os_remove temp_path else ret tt);;
    get_current_document.

Definition load_from_file (file : UploadedFile) : M string :=
  try_except
    (load_from_file_try file)
    (fun e =>
       let error_msg := "File loading error: " +:+ e in
       print error_msg;;
       ret error_msg).

Definition not_found : string :=
  "Example not found. Please select a valid example.".

Definition load_from_example (example_key : string) : M string :=
  match default_documents !! example_key with
  | Some text =>
      set_current_document text;;
      set_document_source ("Example: " +:+ example_key);;
      get_current_document
  | None => ret not_found
  end.

Definition load_from_web_search (query source : string) (max_results : Z) : M string :=
  try_except
    (let* content := DuckDuckGoSearch.search E query max_results in
     let source_name := "DuckDuckGo Search" in
     set_current_document content;;
     set_document_source (source_name +:+ ": " +:+ query);;
     get_current_document)
    (fun e =>
       let error_msg := "Web search error: " +:+ e in
       print error_msg;;
       ret error_msg).

(** [text[:max_chars] + "..."] when the text is longer than [max_chars] *)
Definition truncate (text : string) (max_chars : Z) : string :=
  if (max_chars <? Z.of_nat (Py.len text))%Z
  then Py.slice_to text max_chars +:+ ellipsis
  else text.

(** The vector-search branch yields [Some] of what it returns, and [None]
    when control falls through to the raw-text branch. *)
Definition get_relevant_context (query : string) (max_chars : Z) : M string :=
  let* d := get_self in
  let* returned :=
    match vector_store d, embeddings d with
    | Some store, Some _ =>
        try_except
          (let* docs := call (similarity_search E store query 3) in
           let relevant_text :=
             Py.join (Py.newline +:+ Py.newline) (map page_content docs) in
           ret (Some (truncate relevant_text max_chars)))
          (fun e =>
             print ("Vector search error: " +:+ e);;
             ret None)
    | _, _ => ret None
    end in
  match returned with
  | Some text => ret text
  | None =>
      let* d := get_self in
      ret (truncate (current_document d) max_chars)
  end.

End Loader.

(** ** class HuggingFaceQA *)

Inductive PyVal :=
| PStr (s : string)
| PFloat (q : Q)
| PInt (z : Z).

Abbreviation Dict := (gmap string PyVal).

(** The cached pipeline is a callable, or [None] when its set-up failed. *)
Record HuggingFaceQA := {
  qa_pipeline : option (string -> string -> outcome Dict);
}.

Definition answer_question (hf : HuggingFaceQA) (question context : string) : M Dict :=
  try_except
    (match qa_pipeline hf with
     | None =>
         ret ({[ "answer" := PStr "QA pipeline not initialized";
                 "score" := PFloat 0 ]} : Dict)
     | Some pipeline =>
         let* result := call (pipeline question context) in
         ret result
     end)
    (fun e =>
       let error_msg := "QA error: " +:+ e in
       print error_msg;;
       ret ({[ "answer" := PStr error_msg; "score" := PFloat 0 ]} : Dict)).

(** ** The specification's wording, for comparison with the code *)

Module Spec.

(** The block [{title}\nSummary: {snippet}\nURL: {url}] of the
    specification, for one search hit. *)
Definition block (result : SearchResult) : string :=
  DuckDuckGoSearch.get_title result +:+ Py.newline +:+
  "Summary: " +:+ DuckDuckGoSearch.get_snippet result +:+ Py.newline +:+
  "URL: " +:+ DuckDuckGoSearch.get_url result.

(** The blocks joined by blank lines, nothing else added. *)
Definition search_text (results : list SearchResult) : string :=
  Py.join (Py.newline +:+ Py.newline) (map block results).


(** The extractive backend fails internally: no pipeline, or the model
    call raises. *)
Definition internal_failure (hf : HuggingFaceQA) (question context : string) : Prop :=
  match qa_pipeline hf with
  | None => True
  | Some pipeline => exists msg, pipeline question context = Raise msg
  end.

End Spec.

(** During the step from [w] to [w'] an index was built and installed. *)
Definition index_built (w w' : World) : Prop :=
  exists store,
    events w' = events w ++ [IndexBuilt store] /\
    vector_store (self w') = Some store.

(** The file takes the structured (non [.txt]/[.md]) path of [load_from_file]. *)
Definition structured (file : UploadedFile) : Prop :=
  Py.endswith (name file) ".txt" || Py.endswith (name file) ".md" = false.

(** ** A concrete set of collaborators, to run the model on *)

Module Demo.

Definition hit (title body href : string) : SearchResult :=
  {[ "title" := title; "body" := body; "href" := href ]}.

Definition passage : string :=
  "Chapter one. The quarterly report covers revenue, cost of sales and the outlook for the coming year in detail.".

(** The provider is unreachable for the query ["offline"], finds nothing
    for ["zzzz"], and one hit otherwise.  A parser rejects an empty file
    and otherwise yields the file contents as one block.  Similarity
    search yields the first [k] stored passages. *)
Definition collaborators : Collaborators :=
  {| ddgs_text query max_results :=
       if String.eqb query "offline" then Raise "connection timed out"
       else if String.eqb query "zzzz" then Ok []
       else Ok [hit "Rocq" "A proof assistant." "https://rocq-prover.org"];
     decode_utf8 data := Ok (String.string_of_list_byte data);
     mkstemp _ := "/tmp/tmpk3v9x2aq";
     parse loader data :=
       match data with
       | Some (b :: bs) => Ok [ {| page_content := String.string_of_list_byte (b :: bs) |} ]
       | Some [] => Raise "file is empty"
       | None => Raise "no such file"
       end;
     new_embeddings := Ok {| model_name := "sentence-transformers/all-mpnet-base-v2" |};
     embed_documents _ _ := Ok tt;
     similarity_search store query k := Ok (take k (docstore store)) |}.

(** The same, with an embedding model that cannot be loaded. *)
Definition no_embeddings : Collaborators :=
  {| ddgs_text := ddgs_text collaborators;
     decode_utf8 := decode_utf8 collaborators;
     mkstemp := mkstemp collaborators;
     parse := parse collaborators;
     new_embeddings := Raise "model download failed";
     embed_documents := embed_documents collaborators;
     similarity_search := similarity_search collaborators |}.

Definition fresh : World := {| self := init; fs := ∅; events := [] |}.

Definition report_pdf : UploadedFile :=
  {| name := "report.pdf"; getvalue := String.list_byte_of_string passage |}.

Definition empty_pdf : UploadedFile :=
  {| name := "empty.pdf"; getvalue := [] |}.

Definition short_docx : UploadedFile :=
  {| name := "memo.docx"; getvalue := String.list_byte_of_string "Lunch at noon." |}.

Definition after_report : World := snd (load_from_file collaborators report_pdf fresh).


Definition hello : World :=
  {| self := {| current_document := "hello"; document_source := "User input";
                vector_store := None; embeddings := None |};
     fs := ∅; events := [] |}.

Definition no_pipeline : HuggingFaceQA := {| qa_pipeline := None |}.

Definition raising_pipeline : HuggingFaceQA :=
  {| qa_pipeline := Some (fun _ _ => Raise "CUDA out of memory") |}.

End Demo.

(** What [get_relevant_context] returns is a function of the loader object
    alone, and the call leaves the loader object as it was. *)
Definition selected (E : Collaborators) (query : string) (max_chars : Z)
    (d : DocumentLoader) : string :=
  match vector_store d, embeddings d with
  | Some store, Some _ =>
      match similarity_search E store query 3 with
      | Ok docs =>
          truncate (Py.join (Py.newline +:+ Py.newline) (map page_content docs)) max_chars
      | Raise _ => truncate (current_document d) max_chars
      end
  | _, _ => truncate (current_document d) max_chars
  end.

(** The structured path of [load_from_file], in one step: the temporary
    file is gone afterwards, and the loader changes as far as the parser,
    the embedding model and the index build allow. *)
Definition temp_path_of (E : Collaborators) (file : UploadedFile) (w : World) : string :=
  mkstemp E (fs w) +:+ Py.splitext_ext (name file).

Definition loader_of (temp_path : string) : Loader :=
  if Py.endswith temp_path ".pdf" then UnstructuredPDFLoader temp_path
  else if Py.endswith temp_path ".docx" then UnstructuredWordDocumentLoader temp_path
  else TextLoader temp_path.

Definition structured_outcome (E : Collaborators) (file : UploadedFile) (w : World)
    : outcome string * World :=
  let temp_path := temp_path_of E file w in
  let fs' := delete temp_path
               (<[temp_path := getvalue file]> (<[temp_path := []]> (fs w))) in
  let d := self w in
  match parse E (loader_of temp_path) (Some (getvalue file)) with
  | Raise msg => (Raise msg, {| self := d; fs := fs'; events := events w |})
  | Ok docs =>
      let text_content :=
        Py.join (Py.newline +:+ Py.newline) (map page_content docs) in
      if 100 <? Py.len text_content then
        match new_embeddings E with
        | Raise msg => (Raise msg, {| self := d; fs := fs'; events := events w |})
        | Ok emb =>
            match embed_documents E emb (map page_content docs) with
            | Raise msg =>
                (Raise msg,
                 {| self := {| current_document := current_document d;
                               document_source := document_source d;
                               vector_store := vector_store d;
                               embeddings := Some emb |};
                    fs := fs'; events := events w |})
            | Ok _ =>
                let store := {| docstore := docs; embedding_function := emb |} in
                (Ok text_content,
                 {| self := {| current_document := text_content;
                               document_source := name file;
                               vector_store := Some store;
                               embeddings := Some emb |};
                    fs := fs'; events := events w ++ [IndexBuilt store] |})
            end
        end
      else
        (Ok text_content,
         {| self := {| current_document := text_content;
                       document_source := name file;
                       vector_store := vector_store d;
                       embeddings := embeddings d |};
            fs := fs'; events := events w |})
  end.

(** The step from [w] to [w'] left the stored Index alone. *)
Definition index_unchanged (w w' : World) : Prop :=
  vector_store (self w') = vector_store (self w) /\
  embeddings (self w') = embeddings (self w).

(** The step from [w] to [w'] left the Document alone. *)
Definition document_unchanged (w w' : World) : Prop :=
  current_document (self w') = current_document (self w) /\
  document_source (self w') = document_source (self w).

(** * The rest of the application *)

(** ** class GeminiQA *)

(** What reading [response.text] does: the attribute holds a string, does
    not exist ([AttributeError]), or is a property that raises. *)
Inductive Attribute :=
| Present (value : string)
| Absent
| Failing (msg : string).

Record GenerateContentResponse := { response_text : Attribute }.

(** [self.model] is a generative model, called through
    [generate_content(prompt)], or [None] when its construction failed. *)
Record GeminiQA := {
  gemini_model_name : string;
  model : option (string -> outcome GenerateContentResponse);
}.

Definition dquote : string := String (ascii_of_nat 34) EmptyString.

Definition indent12 : string := "            ".

(** The f-string [prompt] of [GeminiQA.answer_question], line by line. *)
Definition gemini_prompt (question context : string) : string :=
  Py.newline +:+
  indent12 +:+ "Context:" +:+ Py.newline +:+
  indent12 +:+ context +:+ Py.newline +:+
  indent12 +:+ Py.newline +:+
  indent12 +:+ "Question:" +:+ Py.newline +:+
  indent12 +:+ question +:+ Py.newline +:+
  indent12 +:+ Py.newline +:+
  indent12 +:+ "Answer the question based ONLY on the information provided in the context above." +:+ Py.newline +:+
  indent12 +:+ "If the answer cannot be found in the context, state " +:+ dquote +:+ "I cannot answer this based on the provided context." +:+ dquote +:+ Py.newline +:+
  indent12.

(** [hasattr(response, 'text')]: false on [AttributeError] only. *)
Definition hasattr_text (response : GenerateContentResponse) : M bool :=
  match response_text response with
  | Present _ => ret true
  | Absent => ret false
  | Failing msg => raise msg
  end.

(** [response.text] *)
Definition getattr_text (response : GenerateContentResponse) : M string :=
  match response_text response with
  | Present value => ret value
  | Absent => raise "'GenerateContentResponse' object has no attribute 'text'"
  | Failing msg => raise msg
  end.

Definition GeminiQA_answer_question (gemini : GeminiQA) (question context : string)
    : M string :=
  try_except
    (match model gemini with
     | None => ret "Gemini model not initialized"
     | Some generate_content =>
         let prompt := gemini_prompt question context in
         let* response := call (generate_content prompt) in
         let* has := hasattr_text response in
         if has then getattr_text response else ret "No response generated"
     end)
    (fun e =>
       let error_msg := "Error generating response: " +:+ e in
       print error_msg;;
       ret error_msg).

(** ** Construction of the components *)

Record Services := {
  (** [DDGS()] *)
  new_ddgs : outcome unit;
  (** [get_hf_pipeline()], the cached question-answering pipeline *)
  get_hf_pipeline : outcome (string -> string -> outcome Dict);
  (** [genai.GenerativeModel(model_name)] *)
  new_generative_model : string -> outcome (string -> outcome GenerateContentResponse);
  (** the format specification [.2f] applied to a value *)
  format_2f : PyVal -> outcome string;
}.

(** [DocumentLoader()]: the search session is opened, then the attributes
    are set. *)
Definition DocumentLoader_new (A : Services) : M unit :=
  call (new_ddgs A);;
  set_self init.

(** [HuggingFaceQA()] *)
Definition HuggingFaceQA_new (A : Services) : M HuggingFaceQA :=
  try_except
    (let* pipeline := call (get_hf_pipeline A) in
     ret {| qa_pipeline := Some pipeline |})
    (fun e =>
       print ("Failed to initialize QA pipeline: " +:+ e);;
       ret {| qa_pipeline := None |}).

(** [GeminiQA(model_name)] *)
Definition GeminiQA_new (A : Services) (model_name : string) : M GeminiQA :=
  try_except
    (let* generative_model := call (new_generative_model A model_name) in
     ret {| gemini_model_name := model_name; model := Some generative_model |})
    (fun e =>
       let error_msg := "Error initializing Gemini model: " +:+ e in
       print error_msg;;
       ret {| gemini_model_name := model_name; model := None |}).

(** ** The Streamlit script *)

(** What the script shows.  Only the calls whose arguments depend on the
    inputs are recorded; page set-up, titles, column layout, spinners, the
    tips and the footer are left out. *)
Inductive UI :=
| st_warning (body : string)
| st_info (body : string)
| st_success (body : string)
| st_error (body : string)
| st_markdown (body : PyVal)
| st_text_area (value : string)
| st_write (body : string)
| st_code (body : PyVal).

(** The widget values of one run of the script.  [max_results] is the
    slider of the Web Search mode and is read in that mode only. *)
Record Inputs := {
  model_option : string;
  source_option : string;
  user_text : string;
  uploaded_file : option UploadedFile;
  max_results : Z;
  user_question : string;
  get_answer : bool;
}.

(** Truth value of a [str] *)
Definition truthy (s : string) : bool := negb (String.eqb s "").

(** [d[key]] *)
Definition getitem (d : Dict) (key : string) : M PyVal :=
  match d !! key with
  | Some v => ret v
  | None => raise ("'" +:+ key +:+ "'")
  end.

Definition log_qa_activity (question context : string) (answer : PyVal) (method : string)
    : list UI :=
  [ st_write ("### QA Process (" +:+ method +:+ "):");
    st_write "**Context Used:**";
    st_code (PStr context);
    st_write "**Question:**";
    st_code (PStr question);
    st_write "**Generated Answer:**";
    st_code answer ].

Section Script.

Variable E : Collaborators.
Variable A : Services.

(** The [try] block that extracts and shows the answer. *)
Definition extract_knowledge (hf_qa : HuggingFaceQA) (gemini_qa : GeminiQA)
    (model_option user_question document : string) : M (list UI) :=
  try_except
    (let* answered :=
       if String.eqb model_option "Google Gemini" then
         let* answer := GeminiQA_answer_question gemini_qa user_question document in
         ret (PStr answer, "Google Gemini")
       else
         let* result := answer_question hf_qa user_question document in
         let* answer := getitem result "answer" in
         let* confidence := call (format_2f A (default (PFloat 0) (result !! "score"))) in
         ret (answer, "Hugging Face (confidence: " +:+ confidence +:+ ")") in
     ret ([ st_success "Answer extracted!";
            st_markdown (PStr "### Answer:");
            st_markdown (fst answered) ]
          ++ log_qa_activity user_question (truncate document 500)
               (fst answered) (snd answered)))
    (fun e =>
       ret [ st_error ("An error occurred during knowledge extraction: " +:+ e) ]).

(** The body of [if st.button("Get Answer", ...)]: yields the value of the
    script variable [document] afterwards, and what was shown. *)
Definition on_get_answer (hf_qa : HuggingFaceQA) (gemini_qa : GeminiQA)
    (i : Inputs) (document : string) : M (string * list UI) :=
  let* document :=
    if String.eqb (source_option i) "Web Search"
       && negb (truthy document) && truthy (user_question i)
    then load_from_web_search E (user_question i) "duckduckgo" (max_results i)
    else ret document in
  if negb (truthy document) then
    ret (document,
         [ st_warning "No document available. Please provide text, upload a file, or enter a search question." ])
  else if negb (truthy (user_question i)) then
    ret (document, [ st_warning "Please enter a question." ])
  else
    let* shown :=
      extract_knowledge hf_qa gemini_qa (model_option i) (user_question i) document in
    ret (document, shown).

(** One run of the script, from the construction of the components on. *)
Definition script (i : Inputs) : M (list UI) :=
  try_except
    (DocumentLoader_new A;;
     let* hf_qa := HuggingFaceQA_new A in
     let* gemini_qa := GeminiQA_new A "gemini-2.0-flash" in
     let document := "" in
     let* loaded :=
       if String.eqb (source_option i) "Paste Text" then
         if truthy (user_text i) then
           let* document := load_from_text (user_text i) in ret (document, [])
         else ret (document, [])
       else if String.eqb (source_option i) "Upload File" then
         match uploaded_file i with
         | Some file => let* document := load_from_file E file in ret (document, [])
         | None => ret (document, [])
         end
       else if String.eqb (source_option i) "Web Search" then
         if get_answer i then on_get_answer hf_qa gemini_qa i document
         else ret (document, [])
       else ret (document, []) in
     let document := fst loaded in
     let* content :=
       if truthy document then
         let* source := get_document_source in
         ret [ st_markdown (PStr ("**Source:** " +:+ source)); st_text_area document ]
       else if String.eqb (source_option i) "Paste Text"
               || String.eqb (source_option i) "Upload File"
       then ret [ st_info "Please select or upload a document to begin." ]
       else ret [] in
     let* asked :=
       if negb (String.eqb (source_option i) "Web Search") then
         if get_answer i then
           let* answered := on_get_answer hf_qa gemini_qa i document in
           ret (snd answered)
         else ret []
       else ret [] in
     ret (snd loaded ++ content ++ asked))
    (fun e =>
       ret [ st_error (Py.newline +:+ "    Failed to initialize the application: " +:+ e
                       +:+ Py.newline +:+ Py.newline +:+ Py.newline +:+ "    ") ]).

End Script.

(** ** More collaborators to run the model on *)

Module Fixture.

(** As [Demo.collaborators], with a similarity search that fails. *)
Definition broken_search : Collaborators :=
  {| ddgs_text := ddgs_text Demo.collaborators;
     decode_utf8 := decode_utf8 Demo.collaborators;
     mkstemp := mkstemp Demo.collaborators;
     parse := parse Demo.collaborators;
     new_embeddings := new_embeddings Demo.collaborators;
     embed_documents := embed_documents Demo.collaborators;
     similarity_search _ _ _ := Raise "index file is corrupt" |}.

(** As [Demo.collaborators], with an embedding step that runs out of memory. *)
Definition broken_index_build : Collaborators :=
  {| ddgs_text := ddgs_text Demo.collaborators;
     decode_utf8 := decode_utf8 Demo.collaborators;
     mkstemp := mkstemp Demo.collaborators;
     parse := parse Demo.collaborators;
     new_embeddings := new_embeddings Demo.collaborators;
     embed_documents _ _ := Raise "out of memory";
     similarity_search := similarity_search Demo.collaborators |}.

(** Two hits, the second without a body. *)
Definition two_hits : list SearchResult :=
  [ Demo.hit "Rocq" "A proof assistant." "https://rocq-prover.org";
    {[ "title" := "stdpp"; "snippet" := "An extended standard library.";
       "href" := "https://gitlab.mpi-sws.org/iris/stdpp" ]} ].

Definition two_hit_provider : Collaborators :=
  {| ddgs_text _ _ := Ok two_hits;
     decode_utf8 := decode_utf8 Demo.collaborators;
     mkstemp := mkstemp Demo.collaborators;
     parse := parse Demo.collaborators;
     new_embeddings := new_embeddings Demo.collaborators;
     embed_documents := embed_documents Demo.collaborators;
     similarity_search := similarity_search Demo.collaborators |}.

Definition span : Dict :=
  {[ "answer" := PStr "noon"; "score" := PFloat (9 # 10);
     "start" := PInt 9; "end" := PInt 13 ]}.

(** Services that are all available. *)
Definition services : Services :=
  {| new_ddgs := Ok tt;
     get_hf_pipeline := Ok (fun _ _ => Ok span);
     new_generative_model _ := Ok (fun _ => Ok {| response_text := Present "At noon." |});
     format_2f v :=
       match v with
       | PFloat q => if Qeq_bool q 0 then Ok "0.00" else Ok "0.90"
       | PInt _ => Ok "0.00"
       | PStr _ => Raise "Unknown format code 'f' for object of type 'str'"
       end |}.

(** Services whose models cannot be set up. *)
Definition offline : Services :=
  {| new_ddgs := Ok tt;
     get_hf_pipeline := Raise "model is not cached";
     new_generative_model _ := Raise "API key not valid";
     format_2f := format_2f services |}.

Definition blocked_gemini : GeminiQA :=
  {| gemini_model_name := "gemini-2.0-flash";
     model := Some (fun _ => Ok {| response_text := Failing "response was blocked" |}) |}.

Definition notes_txt : UploadedFile :=
  {| name := "notes.txt"; getvalue := String.list_byte_of_string "Lunch at noon." |}.

Definition paste (text question : string) (clicked : bool) : Inputs :=
  {| model_option := "Google Gemini"; source_option := "Paste Text";
     user_text := text; uploaded_file := None; max_results := 5;
     user_question := question; get_answer := clicked |}.



(** The report is loaded and indexed, then a short memo is uploaded. *)
Definition after_memo : World :=
  snd (load_from_file Demo.collaborators Demo.short_docx Demo.after_report).

(** The report is uploaded while the index build fails. *)
Definition after_failed_build : World :=
  snd (load_from_file broken_index_build Demo.report_pdf Demo.fresh).

End Fixture.

(** Runs the monad operations of a method body. *)
Ltac run :=
  cbv beta iota zeta delta
    [bind ret raise call try_except try_finally get_self set_self emit print
     set_current_document set_document_source set_vector_store set_embeddings
     get_current_document get_document_source get_fs set_fs
     NamedTemporaryFile write os_path_exists os_remove load FAISS_from_documents];
  cbn [self fs events current_document document_source vector_store embeddings
       fst snd].

(** * Properties *)

(** ** Strings *)

Lemma length_append (s1 s2 : string) :
  Py.len (s1 +:+ s2) = Py.len s1 + Py.len s2.
Proof.
  unfold Py.len. induction s1 as [|a s1 IH]; simpl; [reflexivity|].
  now rewrite IH.
Qed.

Lemma length_prefix (n : nat) (s : string) :
  Py.len (String.substring 0 n s) = Nat.min n (Py.len s).
Proof.
  unfold Py.len. revert n.
  induction s as [|a s IH]; intros [|n]; simpl; try reflexivity.
  now rewrite IH.
Qed.

Lemma length_slice_to (s : string) (n : Z) :
  (0 <= n)%Z -> (Z.of_nat (Py.len (Py.slice_to s n)) <= n)%Z.
Proof.
  intros Hn. unfold Py.slice_to.
  destruct (Z.ltb_spec n 0) as [Hneg|_]; [lia|].
  rewrite length_prefix. lia.
Qed.

Lemma length_truncate (text : string) (max_chars : Z) :
  (0 <= max_chars)%Z ->
  (Z.of_nat (Py.len (truncate text max_chars))
   <= max_chars + Z.of_nat (Py.len ellipsis))%Z.
Proof.
  intros Hmax. unfold truncate.
  destruct (Z.ltb_spec max_chars (Z.of_nat (Py.len text))) as [Hlong|Hshort].
  - rewrite length_append. pose proof (length_slice_to text max_chars Hmax). lia.
  - lia.
Qed.

Lemma truncate_short (text : string) (max_chars : Z) :
  (Z.of_nat (Py.len text) <= max_chars)%Z -> truncate text max_chars = text.
Proof.
  intros Hshort. unfold truncate.
  destruct (Z.ltb_spec max_chars (Z.of_nat (Py.len text))); [lia|reflexivity].
Qed.

Lemma map_enumerate {A B} (f : A -> B) (xs : list A) (start : nat) :
  map (fun '(idx, x) => f x) (enumerate xs start) = map f xs.
Proof.
  revert start. induction xs as [|x xs IH]; intros start; simpl; [reflexivity|].
  now rewrite IH.
Qed.

Lemma append_assoc (s1 s2 s3 : string) :
  (s1 +:+ s2) +:+ s3 = s1 +:+ (s2 +:+ s3).
Proof.
  induction s1 as [|a s1 IH]; [reflexivity|].
  change (String a ((s1 +:+ s2) +:+ s3) = String a (s1 +:+ (s2 +:+ s3))).
  now rewrite IH.
Qed.

(** ** The context selector *)

Lemma get_relevant_context_selected E query max_chars w :
  fst (get_relevant_context E query max_chars w) = Ok (selected E query max_chars (self w))
  /\ self (snd (get_relevant_context E query max_chars w)) = self w
  /\ fs (snd (get_relevant_context E query max_chars w)) = fs w.
Proof.
  unfold get_relevant_context, selected, bind, get_self, try_except, call, ret, print, emit.
  destruct (vector_store (self w)) as [store|]; simpl; [|auto].
  destruct (embeddings (self w)) as [emb|]; simpl; [|auto].
  destruct (similarity_search E store query 3) as [docs|msg]; simpl; auto.
Qed.

(** C2 (as amended): for a non-negative [max_chars], the context returned
    by [get_relevant_context] is at most [max_chars] plus the length of the
    ellipsis marker long, on the index-backed path and on the raw-text
    path alike. *)
Theorem get_relevant_context_length E query max_chars w :
  (0 <= max_chars)%Z ->
  exists text,
    fst (get_relevant_context E query max_chars w) = Ok text /\
    (Z.of_nat (Py.len text) <= max_chars + Z.of_nat (Py.len ellipsis))%Z /\
    Py.len ellipsis = 3.
Proof.
  intros Hmax.
  destruct (get_relevant_context_selected E query max_chars w) as (Hret & _ & _).
  exists (selected E query max_chars (self w)).
  split; [exact Hret|]. split; [|reflexivity].
  unfold selected.
  destruct (vector_store (self w)) as [store|];
    [destruct (embeddings (self w)) as [emb|];
     [destruct (similarity_search E store query 3) as [docs|msg]|]|];
    now apply length_truncate.
Qed.

Lemma get_relevant_context_length_witness :
  exists text,
    fst (get_relevant_context Demo.collaborators "What is covered?" 20 Demo.after_report)
    = Ok text /\
    (Z.of_nat (Py.len text) <= 20 + Z.of_nat (Py.len ellipsis))%Z /\
    Py.len ellipsis = 3.
Proof.
  apply (get_relevant_context_length Demo.collaborators "What is covered?" 20
           Demo.after_report).
  lia.
Defined.

(** C2, as stated, fails: with [max_chars = -1] the slice drops the last
    character only, and the context for the five-character document is
    seven characters long, more than [-1 + 3]. *)
Lemma get_relevant_context_negative_max_chars :
  ~ (forall E query max_chars w text,
        fst (get_relevant_context E query max_chars w) = Ok text ->
        (Z.of_nat (Py.len text) <= max_chars + 3)%Z).
Proof.
  intros Hclaim.
  specialize (Hclaim Demo.collaborators "q" (-1)%Z Demo.hello "hell..." eq_refl).
  vm_compute in Hclaim. apply Hclaim. reflexivity.
Qed.

(** C8: two successive calls of [get_relevant_context] with the same
    question and [max_chars] return the same string; the first call leaves
    the loader (Document and Index) as it found it. *)
Theorem get_relevant_context_deterministic E query max_chars w :
  fst (get_relevant_context E query max_chars
         (snd (get_relevant_context E query max_chars w)))
  = fst (get_relevant_context E query max_chars w)
  /\ self (snd (get_relevant_context E query max_chars w)) = self w.
Proof.
  destruct (get_relevant_context_selected E query max_chars w) as (Hret & Hself & _).
  destruct (get_relevant_context_selected E query max_chars
              (snd (get_relevant_context E query max_chars w))) as (Hret' & _ & _).
  split; [|exact Hself].
  now rewrite Hret', Hret, Hself.
Qed.

(** ** Web search *)

(** The world after a web-search ingestion that stored [content]. *)
Lemma load_from_web_search_stores E query source max_results w content :
  DuckDuckGoSearch.search E query max_results w = (Ok content, w) ->
  load_from_web_search E query source max_results w
  = (Ok content,
     {| self := {| current_document := content;
                   document_source := "DuckDuckGo Search: " +:+ query;
                   vector_store := vector_store (self w);
                   embeddings := embeddings (self w) |};
        fs := fs w; events := events w |}).
Proof.
  intros Hsearch.
  unfold load_from_web_search, try_except, bind at 1. rewrite Hsearch.
  reflexivity.
Qed.

(** C4: when the search provider returns no result, the web-search
    ingestion succeeds and the Document text is the fixed sentinel
    "No results found. Try modifying your search query."; nothing is
    printed and nothing else of the loader changes but the source label. *)
Theorem load_from_web_search_no_results E query source max_results w :
  ddgs_text E query max_results = Ok [] ->
  load_from_web_search E query source max_results w
  = (Ok "No results found. Try modifying your search query.",
     {| self := {| current_document :=
                     "No results found. Try modifying your search query.";
                   document_source := "DuckDuckGo Search: " +:+ query;
                   vector_store := vector_store (self w);
                   embeddings := embeddings (self w) |};
        fs := fs w; events := events w |}).
Proof.
  intros Hempty. apply load_from_web_search_stores.
  unfold DuckDuckGoSearch.search, try_except, bind, call. rewrite Hempty.
  reflexivity.
Qed.

Lemma load_from_web_search_no_results_witness :
  load_from_web_search Demo.collaborators "zzzz" "duckduckgo" 3 Demo.fresh
  = (Ok "No results found. Try modifying your search query.",
     {| self := {| current_document :=
                     "No results found. Try modifying your search query.";
                   document_source := "DuckDuckGo Search: zzzz";
                   vector_store := None;
                   embeddings := None |};
        fs := ∅; events := [] |}).
Proof.
  apply (load_from_web_search_no_results Demo.collaborators "zzzz" "duckduckgo" 3
           Demo.fresh).
  reflexivity.
Defined.

Lemma format_result_block (result : SearchResult) :
  DuckDuckGoSearch.format_result result = Spec.block result +:+ Py.newline.
Proof.
  unfold DuckDuckGoSearch.format_result, Spec.block.
  now rewrite !append_assoc.
Qed.

(** C5 (as amended): for a non-empty sequence of search results, the
    Document text of the web-search ingestion is the concatenation, in
    provider order and joined by a blank line, of one block
    "{title}\nSummary: {snippet}\nURL: {url}\n" per result: the block of
    the specification followed by a newline. *)
Theorem load_from_web_search_blocks E query source max_results w results :
  results <> [] ->
  ddgs_text E query max_results = Ok results ->
  let text :=
    Py.join (Py.newline +:+ Py.newline)
            (map (fun result => Spec.block result +:+ Py.newline) results) in
  fst (load_from_web_search E query source max_results w) = Ok text /\
  current_document (self (snd (load_from_web_search E query source max_results w))) = text.
Proof.
  intros Hne Hresults text.
  assert (Hsearch : DuckDuckGoSearch.search E query max_results w = (Ok text, w)).
  { unfold DuckDuckGoSearch.search, try_except, bind, call. rewrite Hresults.
    destruct results as [|r rs]; [congruence|].
    unfold ret. do 2 f_equal. subst text.
    rewrite (map_enumerate DuckDuckGoSearch.format_result).
    f_equal. apply map_ext. intros a. apply format_result_block. }
  rewrite (load_from_web_search_stores _ _ _ _ _ _ Hsearch). split; reflexivity.
Qed.

Lemma load_from_web_search_blocks_witness :
  fst (load_from_web_search Demo.collaborators "rocq" "duckduckgo" 3 Demo.fresh)
  = Ok ("Rocq" +:+ Py.newline +:+ "Summary: A proof assistant." +:+ Py.newline
        +:+ "URL: https://rocq-prover.org" +:+ Py.newline).
Proof.
  refine (proj1 (load_from_web_search_blocks Demo.collaborators "rocq" "duckduckgo" 3
                   Demo.fresh
                   [Demo.hit "Rocq" "A proof assistant." "https://rocq-prover.org"]
                   _ _)).
  - discriminate.
  - reflexivity.
Defined.

(** C5, as stated, fails: for a single result the Document text is the
    block followed by a newline, not the block alone. *)
Lemma load_from_web_search_trailing_newline :
  ddgs_text Demo.collaborators "rocq" 3
  = Ok [Demo.hit "Rocq" "A proof assistant." "https://rocq-prover.org"]
  /\ fst (load_from_web_search Demo.collaborators "rocq" "duckduckgo" 3 Demo.fresh)
     <> Ok (Spec.search_text
              [Demo.hit "Rocq" "A proof assistant." "https://rocq-prover.org"])
  /\ fst (load_from_web_search Demo.collaborators "rocq" "duckduckgo" 3 Demo.fresh)
     = Ok (Spec.search_text
             [Demo.hit "Rocq" "A proof assistant." "https://rocq-prover.org"]
           +:+ Py.newline).
Proof.
  split; [reflexivity|]. split; [|vm_compute; reflexivity].
  vm_compute. discriminate.
Qed.

(** ** File ingestion *)

Lemma loader_path_loader_of (temp_path : string) :
  loader_path (loader_of temp_path) = temp_path.
Proof.
  unfold loader_of.
  destruct (Py.endswith temp_path ".pdf"); [reflexivity|].
  destruct (Py.endswith temp_path ".docx"); reflexivity.
Qed.

Lemma load_from_file_try_plain E file w :
  ~ structured file ->
  load_from_file_try E file w
  = match decode_utf8 E (getvalue file) with
    | Ok text =>
        (Ok text,
         {| self := {| current_document := text;
                       document_source := name file;
                       vector_store := vector_store (self w);
                       embeddings := embeddings (self w) |};
            fs := fs w; events := events w |})
    | Raise msg => (Raise msg, w)
    end.
Proof.
  unfold structured, load_from_file_try. intros Hplain.
  destruct (Py.endswith (name file) ".txt" || Py.endswith (name file) ".md");
    [|congruence].
  run. destruct (decode_utf8 E (getvalue file)); reflexivity.
Qed.

Lemma load_from_file_try_structured E file w :
  structured file ->
  load_from_file_try E file w = structured_outcome E file w.
Proof.
  unfold structured, load_from_file_try, structured_outcome. intros ->.
  run.
  fold (temp_path_of E file w).
  set (temp_path := temp_path_of E file w).
  fold (loader_of temp_path).
  rewrite loader_path_loader_of.
  rewrite lookup_insert_eq.
  destruct (parse E (loader_of temp_path) (Some (getvalue file))) as [docs|msg];
    [destruct (100 <? Py.len _);
     [destruct (new_embeddings E) as [emb|msg];
      [destruct (embed_documents E emb (map page_content docs)) as [[]|msg]|]|]|];
    cbn [self fs events current_document document_source vector_store embeddings
         fst snd];
    rewrite bool_decide_eq_true_2 by (rewrite lookup_insert_eq; eauto);
    cbv beta iota;
    cbn [self fs events current_document document_source vector_store embeddings
         fst snd];
    rewrite lookup_insert_eq; reflexivity.
Qed.

Lemma load_from_file_unfold E file w :
  load_from_file E file w
  = match load_from_file_try E file w with
    | (Ok text, w') => (Ok text, w')
    | (Raise msg, w') =>
        (Ok ("File loading error: " +:+ msg),
         {| self := self w'; fs := fs w';
            events := events w' ++ [Printed ("File loading error: " +:+ msg)] |})
    end.
Proof.
  unfold load_from_file, try_except.
  destruct (load_from_file_try E file w) as [[text|msg] w']; reflexivity.
Qed.

Lemma structured_outcome_fs E file w :
  fs (snd (structured_outcome E file w)) !! temp_path_of E file w = None.
Proof.
  unfold structured_outcome.
  destruct (parse E _ _) as [docs|msg];
    [destruct (100 <? Py.len _);
     [destruct (new_embeddings E) as [emb|msg];
      [destruct (embed_documents E emb _) as [[]|msg]|]|]|];
    cbn [snd fs]; apply lookup_delete_eq.
Qed.

(** C7: when [load_from_file] returns from the structured path, the
    temporary file it created does not exist, whatever the parser, the
    embedding model and the index build did (success or failure). *)
Theorem load_from_file_removes_temp_file E file w temp_path w1 :
  structured file ->
  NamedTemporaryFile E (Py.splitext_ext (name file)) w = (Ok temp_path, w1) ->
  fs (snd (load_from_file E file w)) !! temp_path = None.
Proof.
  intros Hstructured Htmp.
  assert (temp_path = temp_path_of E file w) as ->
    by (unfold temp_path_of; revert Htmp; run; intros [= <- _]; reflexivity).
  rewrite load_from_file_unfold, (load_from_file_try_structured _ _ _ Hstructured).
  pose proof (structured_outcome_fs E file w) as Hgone.
  destruct (structured_outcome E file w) as [[text|msg] w']; exact Hgone.
Qed.

Lemma load_from_file_removes_temp_file_witness :
  fs (snd (load_from_file Demo.no_embeddings Demo.report_pdf Demo.fresh))
    !! "/tmp/tmpk3v9x2aq.pdf" = None.
Proof.
  apply (load_from_file_removes_temp_file Demo.no_embeddings Demo.report_pdf Demo.fresh
           "/tmp/tmpk3v9x2aq.pdf"
           {| self := init; fs := {[ "/tmp/tmpk3v9x2aq.pdf" := [] ]}; events := [] |}).
  - reflexivity.
  - reflexivity.
Defined.

(** The three paths of C7 at concrete inputs: a parse that succeeds, a
    parser that fails, and an index build that fails. *)
Example temp_file_removed_on_each_path :
  (fst (load_from_file Demo.collaborators Demo.report_pdf Demo.fresh) = Ok Demo.passage
   /\ fs (snd (load_from_file Demo.collaborators Demo.report_pdf Demo.fresh)) = ∅)
  /\ (fst (load_from_file Demo.collaborators Demo.empty_pdf Demo.fresh)
      = Ok "File loading error: file is empty"
      /\ fs (snd (load_from_file Demo.collaborators Demo.empty_pdf Demo.fresh)) = ∅)
  /\ (fst (load_from_file Demo.no_embeddings Demo.report_pdf Demo.fresh)
      = Ok "File loading error: model download failed"
      /\ fs (snd (load_from_file Demo.no_embeddings Demo.report_pdf Demo.fresh)) = ∅).
Proof. repeat split; vm_compute; reflexivity. Qed.

Lemma events_grow (l : list Event) (e : Event) : l ++ [e] <> l.
Proof.
  intros Heq. apply (f_equal (@List.length Event)) in Heq.
  rewrite length_app in Heq. simpl in Heq. lia.
Qed.

Lemma structured_outcome_ok E file w text w' :
  structured_outcome E file w = (Ok text, w') ->
  current_document (self w') = text /\ document_source (self w') = name file /\
  ((100 < Py.len text /\
    exists docs emb,
      text = Py.join (Py.newline +:+ Py.newline) (map page_content docs) /\
      vector_store (self w') = Some {| docstore := docs; embedding_function := emb |} /\
      embeddings (self w') = Some emb /\
      events w' = events w ++ [IndexBuilt {| docstore := docs; embedding_function := emb |}])
   \/ (Py.len text <= 100 /\ index_unchanged w w' /\ events w' = events w)).
Proof.
  unfold structured_outcome, index_unchanged.
  destruct (parse E _ _) as [docs|msg]; [|discriminate].
  destruct (Nat.ltb_spec 100
              (Py.len (Py.join (Py.newline +:+ Py.newline) (map page_content docs))))
    as [Hlong|Hshort].
  - destruct (new_embeddings E) as [emb|msg]; [|discriminate].
    destruct (embed_documents E emb _) as [[]|msg]; [|discriminate].
    intros [= <- <-]. cbn [self current_document document_source vector_store
                            embeddings events].
    repeat split. left. split; [exact Hlong|]. exists docs, emb. repeat split.
  - intros [= <- <-]. cbn [self current_document document_source vector_store
                            embeddings events].
    repeat split. right. repeat split. exact Hshort.
Qed.

Lemma structured_outcome_raise E file w msg w' :
  structured_outcome E file w = (Raise msg, w') -> document_unchanged w w'.
Proof.
  unfold structured_outcome, document_unchanged.
  destruct (parse E _ _) as [docs|msg0]; [|intros [= <- <-]; split; reflexivity].
  destruct (100 <? Py.len _); [|discriminate].
  destruct (new_embeddings E) as [emb|msg0]; [|intros [= <- <-]; split; reflexivity].
  destruct (embed_documents E emb _) as [[]|msg0]; [discriminate|].
  intros [= <- <-]. split; reflexivity.
Qed.

Lemma load_from_file_try_raise E file w msg w' :
  load_from_file_try E file w = (Raise msg, w') -> document_unchanged w w'.
Proof.
  destruct (decide (structured file)) as [Hs|Hp].
  - rewrite (load_from_file_try_structured _ _ _ Hs). apply structured_outcome_raise.
  - rewrite (load_from_file_try_plain _ _ _ Hp).
    destruct (decode_utf8 E (getvalue file)); [discriminate|].
    intros [= <- <-]. split; reflexivity.
Qed.

Lemma search_raise E query max_results w msg :
  ddgs_text E query max_results = Raise msg ->
  DuckDuckGoSearch.search E query max_results w
  = (Ok ("Search error: " +:+ msg),
     {| self := self w; fs := fs w;
        events := events w ++ [Printed ("DuckDuckGo search error: " +:+ msg)] |}).
Proof.
  intros Hraise. unfold DuckDuckGoSearch.search, try_except, bind at 1, call.
  rewrite Hraise. reflexivity.
Qed.

(** What failing ingestion calls do keep: none of them raises.  When
    [load_from_file] fails (file-read, parser or index-build error) it
    returns "File loading error: " followed by the message, and
    [current_document] and [document_source] are left unchanged.  When the
    search provider fails, [load_from_web_search] returns "Search error: "
    followed by the message. *)
Theorem failed_ingestion_returns_error E :
  (forall file w msg w',
      load_from_file_try E file w = (Raise msg, w') ->
      fst (load_from_file E file w) = Ok ("File loading error: " +:+ msg) /\
      document_unchanged w (snd (load_from_file E file w))) /\
  (forall query source max_results w msg,
      ddgs_text E query max_results = Raise msg ->
      fst (load_from_web_search E query source max_results w)
      = Ok ("Search error: " +:+ msg)).
Proof.
  split.
  - intros file w msg w' Hraise.
    rewrite load_from_file_unfold, Hraise. cbn [fst snd]. split; [reflexivity|].
    apply load_from_file_try_raise in Hraise. exact Hraise.
  - intros query source max_results w msg Hraise.
    unfold load_from_web_search, try_except, bind at 1.
    rewrite (search_raise _ _ _ _ _ Hraise). reflexivity.
Qed.

Lemma failed_ingestion_returns_error_witness :
  (fst (load_from_file Demo.collaborators Demo.empty_pdf Demo.after_report)
   = Ok "File loading error: file is empty" /\
   document_unchanged Demo.after_report
     (snd (load_from_file Demo.collaborators Demo.empty_pdf Demo.after_report))) /\
  fst (load_from_web_search Demo.collaborators "offline" "duckduckgo" 3 Demo.after_report)
  = Ok "Search error: connection timed out".
Proof.
  split.
  - refine (proj1 (failed_ingestion_returns_error Demo.collaborators)
              Demo.empty_pdf Demo.after_report "file is empty"
              (snd (load_from_file_try Demo.collaborators Demo.empty_pdf
                      Demo.after_report)) _).
    vm_compute. reflexivity.
  - refine (proj2 (failed_ingestion_returns_error Demo.collaborators)
              "offline" "duckduckgo" 3%Z Demo.after_report "connection timed out" _).
    reflexivity.
Defined.

(** C3, at the failing input: a report is the current Document and the
    search provider is unreachable.  [load_from_web_search] returns the
    error string without raising, as C3 requires, but it also stores that
    string as [current_document] and sets [document_source] to
    "DuckDuckGo Search: offline", where C3 requires the previous Document
    to stay: [DuckDuckGoSearch.search] has turned the exception into its
    return value, so the [except] branch of [load_from_web_search], which
    would leave the Document alone as [load_from_file] does, never runs. *)
Lemma failed_search_replaces_document :
  ddgs_text Demo.collaborators "offline" 3 = Raise "connection timed out"
  /\ current_document (self Demo.after_report) = Demo.passage
  /\ document_source (self Demo.after_report) = "report.pdf"
  /\ fst (load_from_web_search Demo.collaborators "offline" "duckduckgo" 3
            Demo.after_report)
     = Ok "Search error: connection timed out"
  /\ current_document
       (self (snd (load_from_web_search Demo.collaborators "offline" "duckduckgo" 3
                     Demo.after_report)))
     = "Search error: connection timed out"
  /\ document_source
       (self (snd (load_from_web_search Demo.collaborators "offline" "duckduckgo" 3
                     Demo.after_report)))
     = "DuckDuckGo Search: offline"
  /\ ~ document_unchanged Demo.after_report
         (snd (load_from_web_search Demo.collaborators "offline" "duckduckgo" 3
                 Demo.after_report)).
Proof.
  repeat split; try (vm_compute; reflexivity).
  intros [Hdoc _]. vm_compute in Hdoc. discriminate.
Qed.

(** C6 (as amended): on the structured path of [load_from_file], a
    successful ingestion builds an Index exactly when the concatenated text
    is longer than 100 characters; and when the loader holds no Index
    ([vector_store] or [embeddings] is [None]) and the raw text is at most
    [max_chars] long, [get_relevant_context] returns the
    raw Document text itself, with no truncation marker. *)
Theorem index_threshold_and_raw_context E :
  (forall file w text w',
      structured file ->
      load_from_file_try E file w = (Ok text, w') ->
      (index_built w w' <-> 100 < Py.len text)) /\
  (forall query max_chars w,
      vector_store (self w) = None \/ embeddings (self w) = None ->
      (Z.of_nat (Py.len (current_document (self w))) <= max_chars)%Z ->
      get_relevant_context E query max_chars w = (Ok (current_document (self w)), w)).
Proof.
  split.
  - intros file w text w' Hs Hok.
    rewrite (load_from_file_try_structured _ _ _ Hs) in Hok.
    apply structured_outcome_ok in Hok as (_ & _ & Hcases).
    unfold index_built. split.
    + intros (store & Hev & _).
      destruct Hcases as [(Hlong & _)|(_ & _ & Hsame)]; [exact Hlong|].
      rewrite Hsame in Hev. symmetry in Hev. now apply events_grow in Hev.
    + intros Hlong.
      destruct Hcases as [(_ & docs & emb & _ & Hvs & _ & Hev)|(Hshort & _)]; [|lia].
      eauto.
  - intros query max_chars w Hnone Hshort.
    unfold get_relevant_context, bind, get_self, ret.
    destruct Hnone as [-> | Hemb].
    + now rewrite truncate_short.
    + rewrite Hemb. destruct (vector_store (self w)); now rewrite truncate_short.
Qed.

Lemma index_threshold_and_raw_context_witness :
  (index_built Demo.fresh Demo.after_report <-> 100 < Py.len Demo.passage) /\
  get_relevant_context Demo.collaborators "When is lunch?" 8000
    (snd (load_from_file Demo.collaborators Demo.short_docx Demo.fresh))
  = (Ok "Lunch at noon.", snd (load_from_file Demo.collaborators Demo.short_docx Demo.fresh)).
Proof.
  split.
  - refine (proj1 (index_threshold_and_raw_context Demo.collaborators)
              Demo.report_pdf Demo.fresh Demo.passage Demo.after_report _ _).
    + reflexivity.
    + vm_compute. reflexivity.
  - refine (proj2 (index_threshold_and_raw_context Demo.collaborators)
              "When is lunch?" 8000%Z
              (snd (load_from_file Demo.collaborators Demo.short_docx Demo.fresh)) _ _).
    + left. vm_compute. reflexivity.
    + vm_compute. discriminate.
Defined.

(** C6, as stated, fails in two ways.  First, a structured file whose text
    is longer than 100 characters is uploaded while the index build raises:
    no Index is built.  Second, a short memo is uploaded after an indexed
    report: no Index is built for the memo and its text is far below
    [max_chars], yet [get_relevant_context] returns the passage of the
    report, not the text of the memo. *)
Lemma index_threshold_counterexamples :
  (structured Demo.report_pdf
   /\ parse Fixture.broken_index_build
        (loader_of (temp_path_of Fixture.broken_index_build Demo.report_pdf Demo.fresh))
        (Some (getvalue Demo.report_pdf))
      = Ok [ {| page_content := Demo.passage |} ]
   /\ 100 < Py.len (Py.join (Py.newline +:+ Py.newline)
                      (map page_content [ {| page_content := Demo.passage |} ]))
   /\ fst (load_from_file Fixture.broken_index_build Demo.report_pdf Demo.fresh)
      = Ok "File loading error: out of memory"
   /\ vector_store (self Fixture.after_failed_build) = None
   /\ ~ index_built Demo.fresh Fixture.after_failed_build)
  /\
  (structured Demo.short_docx
   /\ fst (load_from_file Demo.collaborators Demo.short_docx Demo.after_report)
      = Ok "Lunch at noon."
   /\ ~ index_built Demo.after_report Fixture.after_memo
   /\ current_document (self Fixture.after_memo) = "Lunch at noon."
   /\ (Z.of_nat (Py.len (current_document (self Fixture.after_memo))) <= 8000)%Z
   /\ fst (get_relevant_context Demo.collaborators "When is lunch?" 8000
             Fixture.after_memo)
      = Ok Demo.passage
   /\ Demo.passage <> current_document (self Fixture.after_memo)).
Proof.
  split.
  - repeat split; try (vm_compute; reflexivity).
    + vm_compute. lia.
    + intros (store & _ & Hvs). vm_compute in Hvs. discriminate.
  - repeat split; try (vm_compute; reflexivity).
    + intros (store & Hev & _). vm_compute in Hev. discriminate.
    + vm_compute. discriminate.
    + vm_compute. discriminate.
Qed.

(** ** Which ingestion replaces what *)




(** ** Examples *)

(** C10: for a key outside the predefined examples, [load_from_example]
    returns "Example not found. Please select a valid example." and changes
    nothing; for a key among them, it returns the example text, makes it the
    current Document and sets the source to "Example: " followed by the
    key.  The predefined keys are solar_energy, ai_ethics and
    renewable_energy. *)
Theorem load_from_example_frame example_key w :
  dom default_documents
  = ({[ "solar_energy"; "ai_ethics"; "renewable_energy" ]} : gset string) /\
  (example_key ∉ dom default_documents ->
   load_from_example example_key w
   = (Ok "Example not found. Please select a valid example.", w)) /\
  (forall text,
      default_documents !! example_key = Some text ->
      load_from_example example_key w
      = (Ok text,
         {| self := {| current_document := text;
                       document_source := "Example: " +:+ example_key;
                       vector_store := vector_store (self w);
                       embeddings := embeddings (self w) |};
            fs := fs w; events := events w |})).
Proof.
  repeat apply conj.
  - unfold default_documents. rewrite !dom_insert_L, dom_singleton_L. set_solver.
  - intros Hnot. apply not_elem_of_dom in Hnot.
    unfold load_from_example. now rewrite Hnot.
  - intros text Hkey. unfold load_from_example. now rewrite Hkey.
Qed.

Lemma load_from_example_frame_witness :
  load_from_example "quantum" Demo.after_report
  = (Ok "Example not found. Please select a valid example.", Demo.after_report)
  /\ document_source (self (snd (load_from_example "solar_energy" Demo.after_report)))
     = "Example: solar_energy".
Proof.
  pose proof (load_from_example_frame "quantum" Demo.after_report) as (_ & Hout & _).
  pose proof (load_from_example_frame "solar_energy" Demo.after_report) as (_ & _ & Hin).
  split.
  - apply Hout. vm_compute. intros Hin'. discriminate.
  - rewrite (Hin _ eq_refl). reflexivity.
Defined.

(** ** The extractive backend *)

(** C9 (as amended): when the extractive backend fails internally,
    [answer_question] does not raise and returns an error answer with score
    0.0: the answer is "QA pipeline not initialized" when there is no
    pipeline, and "QA error: " followed by the exception message when the
    model call raises. *)
Theorem answer_question_failure hf question context w :
  (qa_pipeline hf = None ->
   fst (answer_question hf question context w)
   = Ok {[ "answer" := PStr "QA pipeline not initialized"; "score" := PFloat 0 ]}) /\
  (forall pipeline msg,
      qa_pipeline hf = Some pipeline ->
      pipeline question context = Raise msg ->
      fst (answer_question hf question context w)
      = Ok {[ "answer" := PStr ("QA error: " +:+ msg); "score" := PFloat 0 ]}).
Proof.
  unfold answer_question, try_except, bind, call, ret. split.
  - intros ->. reflexivity.
  - intros pipeline msg -> Hraise. rewrite Hraise. reflexivity.
Qed.

Lemma answer_question_failure_witness :
  fst (answer_question Demo.no_pipeline "Who?" "Nobody knows." Demo.fresh)
  = Ok {[ "answer" := PStr "QA pipeline not initialized"; "score" := PFloat 0 ]}
  /\ fst (answer_question Demo.raising_pipeline "Who?" "Nobody knows." Demo.fresh)
     = Ok {[ "answer" := PStr "QA error: CUDA out of memory"; "score" := PFloat 0 ]}.
Proof.
  split.
  - apply (proj1 (answer_question_failure Demo.no_pipeline "Who?" "Nobody knows."
                    Demo.fresh)).
    reflexivity.
  - apply (proj2 (answer_question_failure Demo.raising_pipeline "Who?" "Nobody knows."
                    Demo.fresh)
             (fun _ _ => Raise "CUDA out of memory") "CUDA out of memory");
      reflexivity.
Defined.

(** C9, as stated, fails: the error answer is not one fixed sentinel.  A
    backend without a pipeline and a backend whose model call raises both
    fail internally, and their answers differ. *)
Lemma answer_question_sentinel_not_fixed :
  ~ exists sentinel : Dict,
      forall hf question context w,
        Spec.internal_failure hf question context ->
        fst (answer_question hf question context w) = Ok sentinel.
Proof.
  intros [sentinel Hfixed].
  pose proof (Hfixed Demo.no_pipeline "Who?" "Nobody knows." Demo.fresh I) as Hnone.
  pose proof (Hfixed Demo.raising_pipeline "Who?" "Nobody knows." Demo.fresh
                (ex_intro _ "CUDA out of memory" eq_refl)) as Hraise.
  rewrite <- Hnone in Hraise.
  apply (f_equal (fun r : outcome Dict =>
                    match r with Ok d => d !! "answer" | Raise _ => None end))
    in Hraise.
  vm_compute in Hraise. discriminate.
Qed.

(** * Further properties of the code *)

(** ** Slices *)

Lemma prefix_slice_from (n : nat) (s : string) :
  String.substring 0 n s +:+ Py.slice_from s n = s.
Proof.
  revert n. induction s as [|a s IH]; intros [|n]; try reflexivity.
  change (String a (String.substring 0 n s +:+ Py.slice_from s n) = String a s).
  now rewrite IH.
Qed.

Lemma length_slice_from (n : nat) (s : string) :
  Py.len (Py.slice_from s n) = Py.len s - n.
Proof.
  unfold Py.len. revert n. induction s as [|a s IH]; intros [|n]; simpl; try reflexivity.
  apply IH.
Qed.

(** [text[:n]] splits the text: what is kept, and what is dropped. *)
Lemma slice_to_split (text : string) (n : Z) :
  exists dropped,
    text = Py.slice_to text n +:+ dropped /\
    Py.len dropped
    = if (n <? 0)%Z then Nat.min (Z.to_nat (- n)) (Py.len text)
      else Py.len text - Z.to_nat n.
Proof.
  unfold Py.slice_to. destruct (Z.ltb_spec n 0) as [Hneg|Hpos].
  - exists (Py.slice_from text (Z.to_nat (Z.of_nat (Py.len text) + n))).
    rewrite prefix_slice_from, length_slice_from. split; [reflexivity|lia].
  - exists (Py.slice_from text (Z.to_nat n)).
    rewrite prefix_slice_from, length_slice_from. split; reflexivity.
Qed.

Lemma get_relevant_context_raw E query max_chars w :
  vector_store (self w) = None ->
  get_relevant_context E query max_chars w
  = (Ok (truncate (current_document (self w)) max_chars), w).
Proof.
  intros Hnone. unfold get_relevant_context, bind, get_self, ret. now rewrite Hnone.
Qed.

Lemma get_relevant_context_indexed E query max_chars w store emb docs :
  vector_store (self w) = Some store ->
  embeddings (self w) = Some emb ->
  similarity_search E store query 3 = Ok docs ->
  get_relevant_context E query max_chars w
  = (Ok (truncate (Py.join (Py.newline +:+ Py.newline) (map page_content docs))
           max_chars), w).
Proof.
  intros Hvs Hemb Hsearch.
  unfold get_relevant_context, bind, get_self, try_except, call, ret.
  now rewrite Hvs, Hemb, Hsearch.
Qed.

Lemma truncate_long (text : string) (max_chars : Z) :
  (0 <= max_chars < Z.of_nat (Py.len text))%Z ->
  exists kept dropped,
    text = kept +:+ dropped /\
    Z.of_nat (Py.len kept) = max_chars /\
    dropped <> "" /\
    truncate text max_chars = kept +:+ "...".
Proof.
  intros [Hpos Hlong].
  destruct (slice_to_split text max_chars) as (dropped & Hsplit & Hlen).
  exists (Py.slice_to text max_chars), dropped.
  destruct (Z.ltb_spec max_chars 0) as [Hneg|_]; [lia|].
  repeat split.
  - exact Hsplit.
  - unfold Py.slice_to. destruct (Z.ltb_spec max_chars 0); [lia|].
    rewrite length_prefix. lia.
  - intros ->. unfold Py.len in *. simpl in Hlen. lia.
  - unfold truncate. destruct (Z.ltb_spec max_chars (Z.of_nat (Py.len text))); [|lia].
    reflexivity.
Qed.

(** X1: when the text to return (the raw Document without an Index, the
    joined passages with one) is longer than a non-negative [max_chars],
    [get_relevant_context] returns exactly its first [max_chars] characters
    followed by "...", and something was cut off. *)
Theorem get_relevant_context_keeps_prefix E query max_chars w :
  (forall (Hnone : vector_store (self w) = None)
          (Hlong : (0 <= max_chars < Z.of_nat (Py.len (current_document (self w))))%Z),
      exists kept dropped,
        current_document (self w) = kept +:+ dropped /\
        Z.of_nat (Py.len kept) = max_chars /\ dropped <> "" /\
        get_relevant_context E query max_chars w = (Ok (kept +:+ "..."), w)) /\
  (forall store emb docs
          (Hvs : vector_store (self w) = Some store)
          (Hemb : embeddings (self w) = Some emb)
          (Hsearch : similarity_search E store query 3 = Ok docs)
          (Hlong : (0 <= max_chars
                    < Z.of_nat (Py.len (Py.join (Py.newline +:+ Py.newline)
                                          (map page_content docs))))%Z),
      exists kept dropped,
        Py.join (Py.newline +:+ Py.newline) (map page_content docs) = kept +:+ dropped /\
        Z.of_nat (Py.len kept) = max_chars /\ dropped <> "" /\
        get_relevant_context E query max_chars w = (Ok (kept +:+ "..."), w)).
Proof.
  split.
  - intros Hnone Hlong. rewrite (get_relevant_context_raw _ _ _ _ Hnone).
    destruct (truncate_long _ _ Hlong) as (kept & dropped & H1 & H2 & H3 & ->).
    exists kept, dropped. auto.
  - intros store emb docs Hvs Hemb Hsearch Hlong.
    rewrite (get_relevant_context_indexed _ _ _ _ _ _ _ Hvs Hemb Hsearch).
    destruct (truncate_long _ _ Hlong) as (kept & dropped & H1 & H2 & H3 & ->).
    exists kept, dropped. auto.
Qed.

Lemma get_relevant_context_keeps_prefix_witness :
  exists kept dropped,
    Demo.passage = kept +:+ dropped /\
    Z.of_nat (Py.len kept) = 12%Z /\ dropped <> "" /\
    get_relevant_context Demo.collaborators "What is covered?" 12 Demo.after_report
    = (Ok (kept +:+ "..."), Demo.after_report).
Proof.
  refine (proj2 (get_relevant_context_keeps_prefix Demo.collaborators
                   "What is covered?" 12 Demo.after_report)
            _ _ [ {| page_content := Demo.passage |} ] _ _ _ _).
  - vm_compute. reflexivity.
  - vm_compute. reflexivity.
  - vm_compute. reflexivity.
  - vm_compute. split; [discriminate|reflexivity].
Defined.

(** X2: for a negative [max_chars] the raw-text path always truncates: it
    drops the last [-max_chars] characters of the Document (all of them when
    there are fewer) and appends "...", so even an empty Document yields
    "...". *)
Theorem get_relevant_context_negative E query max_chars w :
  vector_store (self w) = None ->
  (max_chars < 0)%Z ->
  exists kept dropped,
    current_document (self w) = kept +:+ dropped /\
    Py.len dropped = Nat.min (Z.to_nat (- max_chars)) (Py.len (current_document (self w))) /\
    get_relevant_context E query max_chars w = (Ok (kept +:+ "..."), w).
Proof.
  intros Hnone Hneg. rewrite (get_relevant_context_raw _ _ _ _ Hnone).
  destruct (slice_to_split (current_document (self w)) max_chars)
    as (dropped & Hsplit & Hlen).
  destruct (Z.ltb_spec max_chars 0) as [_|Hpos]; [|lia].
  exists (Py.slice_to (current_document (self w)) max_chars), dropped.
  repeat split; [exact Hsplit|exact Hlen|].
  unfold truncate.
  destruct (Z.ltb_spec max_chars (Z.of_nat (Py.len (current_document (self w)))));
    [reflexivity|lia].
Qed.

Lemma get_relevant_context_negative_witness :
  exists kept dropped,
    "" = kept +:+ dropped /\
    Py.len dropped = Nat.min (Z.to_nat (- (-5))) (Py.len "") /\
    get_relevant_context Demo.collaborators "Anything?" (-5) Demo.fresh
    = (Ok (kept +:+ "..."), Demo.fresh).
Proof.
  apply (get_relevant_context_negative Demo.collaborators "Anything?" (-5) Demo.fresh).
  - reflexivity.
  - lia.
Defined.

(** ** Retrieval with an Index installed *)

(** X3: when an Index is installed and the similarity search raises,
    [get_relevant_context] does not raise: it prints one line,
    "Vector search error: " and the message, and returns what it returns
    for the same Document without any Index. *)
Theorem get_relevant_context_search_failure E query max_chars w store emb msg :
  vector_store (self w) = Some store ->
  embeddings (self w) = Some emb ->
  similarity_search E store query 3 = Raise msg ->
  get_relevant_context E query max_chars w
  = (Ok (truncate (current_document (self w)) max_chars),
     {| self := self w; fs := fs w;
        events := events w ++ [Printed ("Vector search error: " +:+ msg)] |})
  /\ fst (get_relevant_context E query max_chars w)
     = fst (get_relevant_context E query max_chars
              {| self := {| current_document := current_document (self w);
                            document_source := document_source (self w);
                            vector_store := None; embeddings := None |};
                 fs := fs w; events := events w |}).
Proof.
  intros Hvs Hemb Hsearch. split.
  - unfold get_relevant_context, bind, get_self, try_except, call, ret, print, emit.
    rewrite Hvs, Hemb, Hsearch. reflexivity.
  - rewrite (proj1 (get_relevant_context_selected _ _ _ _)).
    rewrite get_relevant_context_raw by reflexivity.
    unfold selected. now rewrite Hvs, Hemb, Hsearch.
Qed.

Lemma get_relevant_context_search_failure_witness :
  get_relevant_context Fixture.broken_search "What is covered?" 8000 Demo.after_report
  = (Ok Demo.passage,
     {| self := self Demo.after_report; fs := fs Demo.after_report;
        events := events Demo.after_report
                  ++ [Printed "Vector search error: index file is corrupt"] |}).
Proof.
  refine (proj1 (get_relevant_context_search_failure Fixture.broken_search
                   "What is covered?" 8000 Demo.after_report _ _
                   "index file is corrupt" _ _ _)).
  - vm_compute. reflexivity.
  - vm_compute. reflexivity.
  - reflexivity.
Defined.

Lemma selected_index_only E query max_chars d d' store emb docs :
  vector_store d = Some store ->
  embeddings d = Some emb ->
  similarity_search E store query 3 = Ok docs ->
  vector_store d' = vector_store d ->
  embeddings d' = embeddings d ->
  selected E query max_chars d' = selected E query max_chars d.
Proof.
  intros Hvs Hemb Hsearch Hvs' Hemb'. unfold selected.
  now rewrite Hvs', Hemb', Hvs, Hemb, Hsearch.
Qed.

(** X4: while an Index is installed and its similarity search succeeds,
    pasting text, choosing an example or running a web search does not
    change what [get_relevant_context] returns for a question: the context
    comes from the Index, not from the Document these calls replace. *)
Theorem get_relevant_context_ignores_document E query max_chars w store emb docs :
  vector_store (self w) = Some store ->
  embeddings (self w) = Some emb ->
  similarity_search E store query 3 = Ok docs ->
  (forall text,
      fst (get_relevant_context E query max_chars (snd (load_from_text text w)))
      = fst (get_relevant_context E query max_chars w)) /\
  (forall example_key,
      fst (get_relevant_context E query max_chars (snd (load_from_example example_key w)))
      = fst (get_relevant_context E query max_chars w)) /\
  (forall search_query source max_results,
      fst (get_relevant_context E query max_chars
             (snd (load_from_web_search E search_query source max_results w)))
      = fst (get_relevant_context E query max_chars w)).
Proof.
  intros Hvs Hemb Hsearch.
  assert (Hsame : forall w', vector_store (self w') = vector_store (self w) ->
                             embeddings (self w') = embeddings (self w) ->
            fst (get_relevant_context E query max_chars w')
            = fst (get_relevant_context E query max_chars w)).
  { intros w' Hvs' Hemb'.
    rewrite !(proj1 (get_relevant_context_selected _ _ _ _)). f_equal.
    now apply (selected_index_only _ _ _ _ _ store emb docs). }
  repeat apply conj.
  - intros text. apply Hsame; reflexivity.
  - intros example_key. unfold load_from_example.
    destruct (default_documents !! example_key); apply Hsame; reflexivity.
  - intros search_query source max_results.
    unfold load_from_web_search, try_except, bind at 1.
    unfold DuckDuckGoSearch.search, try_except, bind at 1, call.
    destruct (ddgs_text E search_query max_results) as [[|r rs]|msg0];
      apply Hsame; reflexivity.
Qed.

Lemma get_relevant_context_ignores_document_witness :
  fst (get_relevant_context Demo.collaborators "What changed?" 8000
         (snd (load_from_text "A new note." Demo.after_report)))
  = fst (get_relevant_context Demo.collaborators "What changed?" 8000 Demo.after_report).
Proof.
  refine (proj1 (get_relevant_context_ignores_document Demo.collaborators
                   "What changed?" 8000 Demo.after_report _ _
                   [ {| page_content := Demo.passage |} ] _ _ _) "A new note.").
  - vm_compute. reflexivity.
  - vm_compute. reflexivity.
  - vm_compute. reflexivity.
Defined.

(** ** The search text *)

Lemma append_nonempty (s1 s2 : string) : s1 <> "" -> s1 +:+ s2 <> "".
Proof. destruct s1; [congruence|discriminate]. Qed.

Lemma append_empty_r (s : string) : s +:+ "" = s.
Proof.
  induction s as [|a s IH]; [reflexivity|].
  change (String a (s +:+ "") = String a s). now rewrite IH.
Qed.

Lemma join_cons (sep x : string) (xs : list string) :
  xs <> [] -> Py.join sep (x :: xs) = x +:+ sep +:+ Py.join sep xs.
Proof. destruct xs; [congruence|reflexivity]. Qed.

Lemma join_app (sep : string) (xs ys : list string) :
  xs <> [] -> ys <> [] ->
  Py.join sep (xs ++ ys) = Py.join sep xs +:+ sep +:+ Py.join sep ys.
Proof.
  intros Hxs Hys. induction xs as [|x xs IH]; [congruence|].
  destruct xs as [|x' xs].
  - change ([x] ++ ys) with (x :: ys). now rewrite join_cons.
  - change ((x :: x' :: xs) ++ ys) with (x :: ((x' :: xs) ++ ys)).
    rewrite join_cons by discriminate. rewrite IH by discriminate.
    rewrite (join_cons sep x (x' :: xs)) by discriminate.
    now rewrite !append_assoc.
Qed.

Lemma format_result_nonempty (result : SearchResult) :
  DuckDuckGoSearch.format_result result <> "".
Proof.
  unfold DuckDuckGoSearch.format_result.
  destruct (DuckDuckGoSearch.get_title result); discriminate.
Qed.

Lemma search_results E query max_results w results :
  results <> [] ->
  ddgs_text E query max_results = Ok results ->
  DuckDuckGoSearch.search E query max_results w
  = (Ok (Py.join (Py.newline +:+ Py.newline)
           (map DuckDuckGoSearch.format_result results)), w).
Proof.
  intros Hne Hresults.
  unfold DuckDuckGoSearch.search, try_except, bind, call. rewrite Hresults.
  destruct results as [|r rs]; [congruence|].
  unfold ret. now rewrite (map_enumerate DuckDuckGoSearch.format_result).
Qed.

(** X5: [DuckDuckGoSearch.search] never raises and never returns the empty
    string, whatever the provider does; it changes neither the loader nor
    the file system, and prints only when the provider raised. *)
Theorem search_never_raises E query max_results w :
  exists text,
    fst (DuckDuckGoSearch.search E query max_results w) = Ok text /\
    text <> "" /\
    self (snd (DuckDuckGoSearch.search E query max_results w)) = self w /\
    fs (snd (DuckDuckGoSearch.search E query max_results w)) = fs w /\
    (events (snd (DuckDuckGoSearch.search E query max_results w)) = events w \/
     exists msg, ddgs_text E query max_results = Raise msg).
Proof.
  destruct (ddgs_text E query max_results) as [[|r rs]|msg] eqn:Hprovider.
  - exists DuckDuckGoSearch.no_results.
    unfold DuckDuckGoSearch.search, try_except, bind, call. rewrite Hprovider.
    repeat split; [discriminate|now left].
  - rewrite (search_results E query max_results w (r :: rs)) by congruence.
    eexists. repeat split; [|now left].
    change (map DuckDuckGoSearch.format_result (r :: rs))
      with (DuckDuckGoSearch.format_result r :: map DuckDuckGoSearch.format_result rs).
    destruct (map DuckDuckGoSearch.format_result rs) as [|b bs].
    + apply format_result_nonempty.
    + rewrite join_cons by discriminate.
      apply append_nonempty, format_result_nonempty.
  - rewrite (search_raise _ _ _ _ _ Hprovider).
    eexists. repeat split; [discriminate|right; eauto].
Qed.

(** X6: the block written for a search hit depends only on the keys
    [title], [body], [snippet] and [href] of the hit, and on [snippet] only
    when the hit has no [body]. *)
Theorem format_result_relevant_keys (result : SearchResult) key value :
  (key <> "title" -> key <> "body" -> key <> "snippet" -> key <> "href" ->
   DuckDuckGoSearch.format_result (<[key := value]> result)
   = DuckDuckGoSearch.format_result result) /\
  (is_Some (result !! "body") ->
   DuckDuckGoSearch.format_result (<["snippet" := value]> result)
   = DuckDuckGoSearch.format_result result).
Proof.
  unfold DuckDuckGoSearch.format_result, DuckDuckGoSearch.get_title,
    DuckDuckGoSearch.get_snippet, DuckDuckGoSearch.get_url.
  split.
  - intros Ht Hb Hs Hh. now rewrite !lookup_insert_ne by congruence.
  - intros [body Hbody].
    rewrite (lookup_insert_ne result "snippet" "title") by discriminate.
    rewrite (lookup_insert_ne result "snippet" "body") by discriminate.
    rewrite (lookup_insert_ne result "snippet" "href") by discriminate.
    now rewrite Hbody.
Qed.

Lemma format_result_relevant_keys_witness :
  DuckDuckGoSearch.format_result
    (<["date" := "2024-05-01"]>
       (Demo.hit "Rocq" "A proof assistant." "https://rocq-prover.org"))
  = DuckDuckGoSearch.format_result
      (Demo.hit "Rocq" "A proof assistant." "https://rocq-prover.org")
  /\ DuckDuckGoSearch.format_result
       (<["snippet" := "Formerly Coq."]>
          (Demo.hit "Rocq" "A proof assistant." "https://rocq-prover.org"))
     = DuckDuckGoSearch.format_result
         (Demo.hit "Rocq" "A proof assistant." "https://rocq-prover.org").
Proof.
  split.
  - apply (proj1 (format_result_relevant_keys
                    (Demo.hit "Rocq" "A proof assistant." "https://rocq-prover.org")
                    "date" "2024-05-01")); discriminate.
  - apply (proj2 (format_result_relevant_keys
                    (Demo.hit "Rocq" "A proof assistant." "https://rocq-prover.org")
                    "snippet" "Formerly Coq.")).
    vm_compute. eauto.
Defined.

(** X7: no hit is dropped or reordered.  When the provider returns
    [before ++ result :: after], the search text is the text for [before],
    the block of [result] and the text for [after], in this order, with
    "\n\n" between the parts that are not empty. *)
Theorem search_keeps_every_hit E query max_results w before result after :
  ddgs_text E query max_results = Ok (before ++ result :: after) ->
  let text_of hits :=
    Py.join (Py.newline +:+ Py.newline) (map DuckDuckGoSearch.format_result hits) in
  fst (DuckDuckGoSearch.search E query max_results w)
  = Ok ((if before is [] then "" else text_of before +:+ Py.newline +:+ Py.newline)
        +:+ DuckDuckGoSearch.format_result result
        +:+ (if after is [] then "" else Py.newline +:+ Py.newline +:+ text_of after)).
Proof.
  intros Hprovider text_of.
  rewrite (search_results E query max_results w (before ++ result :: after))
    by (try exact Hprovider; destruct before; discriminate).
  cbn [fst]. f_equal. rewrite map_app.
  change (map DuckDuckGoSearch.format_result (result :: after))
    with (DuckDuckGoSearch.format_result result
            :: map DuckDuckGoSearch.format_result after).
  assert (Htail :
    Py.join (Py.newline +:+ Py.newline)
      (DuckDuckGoSearch.format_result result :: map DuckDuckGoSearch.format_result after)
    = DuckDuckGoSearch.format_result result
      +:+ (if after is [] then "" else Py.newline +:+ Py.newline +:+ text_of after)).
  { destruct after as [|a after]; [now rewrite append_empty_r|].
    rewrite join_cons by discriminate. reflexivity. }
  destruct before as [|b before].
  - exact Htail.
  - rewrite join_app by discriminate. rewrite Htail.
    subst text_of. cbv beta. now rewrite !append_assoc.
Qed.

Lemma search_keeps_every_hit_witness :
  fst (DuckDuckGoSearch.search Fixture.two_hit_provider "rocq" 5 Demo.fresh)
  = Ok (("Rocq" +:+ Py.newline +:+ "Summary: A proof assistant." +:+ Py.newline
         +:+ "URL: https://rocq-prover.org" +:+ Py.newline
         +:+ Py.newline +:+ Py.newline)
        +:+ ("stdpp" +:+ Py.newline +:+ "Summary: An extended standard library."
             +:+ Py.newline +:+ "URL: https://gitlab.mpi-sws.org/iris/stdpp"
             +:+ Py.newline)
        +:+ "").
Proof.
  refine (search_keeps_every_hit Fixture.two_hit_provider "rocq" 5 Demo.fresh
            [Demo.hit "Rocq" "A proof assistant." "https://rocq-prover.org"]
            {[ "title" := "stdpp"; "snippet" := "An extended standard library.";
               "href" := "https://gitlab.mpi-sws.org/iris/stdpp" ]}
            [] _).
  reflexivity.
Defined.

(** ** What an ingestion call returns and touches *)

Lemma structured_outcome_fs_eq E file w :
  fs (snd (structured_outcome E file w))
  = delete (temp_path_of E file w) (fs w).
Proof.
  unfold structured_outcome.
  destruct (parse E _ _) as [docs|msg];
    [destruct (100 <? Py.len _);
     [destruct (new_embeddings E) as [emb|msg];
      [destruct (embed_documents E emb _) as [[]|msg]|]|]|];
    cbn [snd fs]; now rewrite !delete_insert_eq.
Qed.

Lemma load_from_file_world E file w :
  self (snd (load_from_file E file w)) = self (snd (load_from_file_try E file w)) /\
  fs (snd (load_from_file E file w)) = fs (snd (load_from_file_try E file w)).
Proof.
  rewrite load_from_file_unfold.
  destruct (load_from_file_try E file w) as [[text|msg] w']; split; reflexivity.
Qed.

Lemma load_from_file_try_ok E file w text w' :
  load_from_file_try E file w = (Ok text, w') -> current_document (self w') = text.
Proof.
  destruct (decide (structured file)) as [Hs|Hp].
  - rewrite (load_from_file_try_structured _ _ _ Hs). intros Hok.
    now apply structured_outcome_ok in Hok as (Hdoc & _).
  - rewrite (load_from_file_try_plain _ _ _ Hp).
    destruct (decode_utf8 E (getvalue file)); [|discriminate].
    now intros [= <- <-].
Qed.

(** X8: no ingestion call raises.  [load_from_text] and
    [load_from_web_search] return the Document that is current afterwards;
    [load_from_example] does so or returns the not-found message and changes
    nothing at all; [load_from_file] does so or returns
    "File loading error: ..." with [current_document] and [document_source]
    as they were. *)
Theorem ingestion_returns_current_document E w :
  (forall text,
      fst (load_from_text text w)
      = Ok (current_document (self (snd (load_from_text text w))))) /\
  (forall query source max_results,
      fst (load_from_web_search E query source max_results w)
      = Ok (current_document
              (self (snd (load_from_web_search E query source max_results w))))) /\
  (forall example_key,
      fst (load_from_example example_key w)
      = Ok (current_document (self (snd (load_from_example example_key w))))
      \/ load_from_example example_key w
         = (Ok "Example not found. Please select a valid example.", w)) /\
  (forall file,
      fst (load_from_file E file w)
      = Ok (current_document (self (snd (load_from_file E file w))))
      \/ exists msg,
           fst (load_from_file E file w) = Ok ("File loading error: " +:+ msg) /\
           document_unchanged w (snd (load_from_file E file w))).
Proof.
  repeat apply conj.
  - reflexivity.
  - intros query source max_results.
    unfold load_from_web_search, try_except, bind at 1.
    unfold DuckDuckGoSearch.search, try_except, bind at 1, call.
    destruct (ddgs_text E query max_results) as [[|r rs]|msg]; reflexivity.
  - intros example_key. unfold load_from_example.
    destruct (default_documents !! example_key); [left|right]; reflexivity.
  - intros file. rewrite load_from_file_unfold.
    destruct (load_from_file_try E file w) as [[text|msg] w'] eqn:Htry.
    + left. cbn [fst snd]. now rewrite (load_from_file_try_ok _ _ _ _ _ Htry).
    + right. exists msg. split; [reflexivity|].
      apply load_from_file_try_raise in Htry. exact Htry.
Qed.

(** X9: a [.txt] or [.md] upload never creates a file and never touches
    the Index, whether its bytes decode or not; when they decode, the
    Document is the decoded text, labelled with the file name, and nothing
    is printed. *)
Theorem load_from_file_plain_text E file w :
  ~ structured file ->
  fs (snd (load_from_file E file w)) = fs w /\
  index_unchanged w (snd (load_from_file E file w)) /\
  (forall text,
      decode_utf8 E (getvalue file) = Ok text ->
      load_from_file E file w
      = (Ok text,
         {| self := {| current_document := text; document_source := name file;
                       vector_store := vector_store (self w);
                       embeddings := embeddings (self w) |};
            fs := fs w; events := events w |})).
Proof.
  intros Hplain.
  rewrite load_from_file_unfold, (load_from_file_try_plain _ _ _ Hplain).
  destruct (decode_utf8 E (getvalue file)) as [decoded|msg].
  - repeat split. now intros text [= <-].
  - repeat split. discriminate.
Qed.

Lemma load_from_file_plain_text_witness :
  load_from_file Demo.collaborators Fixture.notes_txt Demo.after_report
  = (Ok "Lunch at noon.",
     {| self := {| current_document := "Lunch at noon."; document_source := "notes.txt";
                   vector_store := vector_store (self Demo.after_report);
                   embeddings := embeddings (self Demo.after_report) |};
        fs := fs Demo.after_report; events := events Demo.after_report |}).
Proof.
  refine (proj2 (proj2 (load_from_file_plain_text Demo.collaborators Fixture.notes_txt
                          Demo.after_report _)) "Lunch at noon." _).
  - unfold structured. vm_compute. discriminate.
  - reflexivity.
Defined.

(** X10: the structured path of [load_from_file] leaves every file other
    than its temporary file as it was, on success and on failure; when the
    temporary name was not in use before, the file system after the call is
    the one before it. *)
Theorem load_from_file_restores_files E file w temp_path w1 :
  structured file ->
  NamedTemporaryFile E (Py.splitext_ext (name file)) w = (Ok temp_path, w1) ->
  (forall path, path <> temp_path ->
                fs (snd (load_from_file E file w)) !! path = fs w !! path) /\
  (fs w !! temp_path = None -> fs (snd (load_from_file E file w)) = fs w).
Proof.
  intros Hstructured Htmp.
  assert (temp_path = temp_path_of E file w) as ->
    by (unfold temp_path_of; revert Htmp; run; intros [= <- _]; reflexivity).
  rewrite (proj2 (load_from_file_world E file w)).
  rewrite (load_from_file_try_structured _ _ _ Hstructured), structured_outcome_fs_eq.
  split.
  - intros path Hother. now rewrite lookup_delete_ne.
  - apply delete_id.
Qed.

Lemma load_from_file_restores_files_witness :
  fs (snd (load_from_file Demo.collaborators Demo.report_pdf Demo.fresh)) = fs Demo.fresh.
Proof.
  refine (proj2 (load_from_file_restores_files Demo.collaborators Demo.report_pdf
                   Demo.fresh "/tmp/tmpk3v9x2aq.pdf"
                   {| self := init; fs := {[ "/tmp/tmpk3v9x2aq.pdf" := [] ]};
                      events := [] |} _ _) _).
  - reflexivity.
  - reflexivity.
  - reflexivity.
Defined.

(** X11: an index build that fails after the embedding model was loaded
    fails the whole ingestion: [load_from_file] returns
    "File loading error: ..." and keeps the previous Document and the
    previous [vector_store], but [self.embeddings] already holds the new
    embedding model. *)
Theorem failed_index_build_keeps_new_embeddings E file w docs emb msg :
  structured file ->
  parse E (loader_of (temp_path_of E file w)) (Some (getvalue file)) = Ok docs ->
  100 < Py.len (Py.join (Py.newline +:+ Py.newline) (map page_content docs)) ->
  new_embeddings E = Ok emb ->
  embed_documents E emb (map page_content docs) = Raise msg ->
  fst (load_from_file E file w) = Ok ("File loading error: " +:+ msg) /\
  embeddings (self (snd (load_from_file E file w))) = Some emb /\
  vector_store (self (snd (load_from_file E file w))) = vector_store (self w) /\
  document_unchanged w (snd (load_from_file E file w)).
Proof.
  intros Hs Hparse Hlong Hemb Hbuild.
  rewrite load_from_file_unfold, (load_from_file_try_structured _ _ _ Hs).
  unfold structured_outcome. rewrite Hparse.
  destruct (Nat.ltb_spec 100
              (Py.len (Py.join (Py.newline +:+ Py.newline) (map page_content docs))));
    [|lia].
  rewrite Hemb, Hbuild. repeat split.
Qed.

Lemma failed_index_build_keeps_new_embeddings_witness :
  fst (load_from_file Fixture.broken_index_build Demo.report_pdf Demo.fresh)
  = Ok "File loading error: out of memory" /\
  embeddings (self (snd (load_from_file Fixture.broken_index_build Demo.report_pdf
                           Demo.fresh)))
  = Some {| model_name := "sentence-transformers/all-mpnet-base-v2" |} /\
  vector_store (self (snd (load_from_file Fixture.broken_index_build Demo.report_pdf
                             Demo.fresh)))
  = None /\
  document_unchanged Demo.fresh
    (snd (load_from_file Fixture.broken_index_build Demo.report_pdf Demo.fresh)).
Proof.
  refine (failed_index_build_keeps_new_embeddings Fixture.broken_index_build
            Demo.report_pdf Demo.fresh [ {| page_content := Demo.passage |} ]
            {| model_name := "sentence-transformers/all-mpnet-base-v2" |}
            "out of memory" _ _ _ _ _).
  - reflexivity.
  - vm_compute. reflexivity.
  - vm_compute. lia.
  - reflexivity.
  - reflexivity.
Defined.

(** ** Choice of the parser *)

Lemma slice_from_app (s t : string) (k : nat) :
  Py.slice_from (s +:+ t) (Py.len s + k) = Py.slice_from t k.
Proof.
  induction s as [|a s IH]; [reflexivity|]. exact IH.
Qed.

Lemma prefix_app (s t : string) : String.substring 0 (Py.len s) (s +:+ t) = s.
Proof.
  induction s as [|a s IH].
  - destruct t; reflexivity.
  - change (String a (String.substring 0 (Py.len s) (s +:+ t)) = String a s).
    now rewrite IH.
Qed.

Lemma endswith_app (s suffix suffix' : string) :
  Py.len suffix' <= Py.len suffix ->
  Py.endswith (s +:+ suffix) suffix' = Py.endswith suffix suffix'.
Proof.
  intros Hle. unfold Py.endswith. rewrite length_append.
  destruct (Nat.leb_spec (Py.len suffix') (Py.len suffix)) as [_|]; [|lia].
  destruct (Nat.leb_spec (Py.len suffix') (Py.len s + Py.len suffix)) as [_|]; [|lia].
  replace (Py.len s + Py.len suffix - Py.len suffix')
    with (Py.len s + (Py.len suffix - Py.len suffix')) by lia.
  now rewrite slice_from_app.
Qed.

Lemma rfind_from_app (c : ascii) (s t : string) (i found : Z) :
  Py.rfind_from c (s +:+ t) i found
  = Py.rfind_from c t (i + Z.of_nat (Py.len s))%Z (Py.rfind_from c s i found).
Proof.
  revert i found. induction s as [|a s IH]; intros i found.
  - cbn [Py.len String.length Py.rfind_from]. change ("" +:+ t) with t.
    now rewrite Z.add_0_r.
  - change (String a s +:+ t) with (String a (s +:+ t)).
    cbn [Py.rfind_from]. rewrite IH. f_equal.
    unfold Py.len. cbn [String.length]. lia.
Qed.

(** [os.path.splitext] on a file name without directory part: the
    extension is found unless the stem is made of dots only. *)
Lemma splitext_ext_pdf (stem : string) :
  Py.rfind "/" stem = (-1)%Z ->
  Py.splitext_ext (stem +:+ ".pdf") = if Py.all_dots stem then "" else ".pdf".
Proof.
  intros Hsep. unfold Py.splitext_ext, Py.rfind in *.
  rewrite !rfind_from_app, Hsep.
  cbn [Py.rfind_from Ascii.eqb Bool.eqb].
  rewrite Z.add_0_l, Nat2Z.id.
  change (Z.to_nat (-1 + 1)) with 0. rewrite Nat.sub_0_r, prefix_app.
  destruct (Z.ltb_spec (-1) (Z.of_nat (Py.len stem))) as [_|]; [|lia].
  destruct (Py.all_dots stem); [reflexivity|].
  replace (Py.len stem) with (Py.len stem + 0) at 1 by lia.
  now rewrite slice_from_app.
Qed.

Lemma splitext_ext_docx (stem : string) :
  Py.rfind "/" stem = (-1)%Z ->
  Py.splitext_ext (stem +:+ ".docx") = if Py.all_dots stem then "" else ".docx".
Proof.
  intros Hsep. unfold Py.splitext_ext, Py.rfind in *.
  rewrite !rfind_from_app, Hsep.
  cbn [Py.rfind_from Ascii.eqb Bool.eqb].
  rewrite Z.add_0_l, Nat2Z.id.
  change (Z.to_nat (-1 + 1)) with 0. rewrite Nat.sub_0_r, prefix_app.
  destruct (Z.ltb_spec (-1) (Z.of_nat (Py.len stem))) as [_|]; [|lia].
  destruct (Py.all_dots stem); [reflexivity|].
  replace (Py.len stem) with (Py.len stem + 0) at 1 by lia.
  now rewrite slice_from_app.
Qed.

Lemma load_from_file_parser_failure E file w msg :
  structured file ->
  parse E (loader_of (temp_path_of E file w)) (Some (getvalue file)) = Raise msg ->
  fst (load_from_file E file w) = Ok ("File loading error: " +:+ msg).
Proof.
  intros Hs Hparse.
  rewrite load_from_file_unfold, (load_from_file_try_structured _ _ _ Hs).
  unfold structured_outcome. now rewrite Hparse.
Qed.

(** X12: an upload named [stem.pdf] or [stem.docx] (no directory part, a
    stem that is not made of dots only) takes the structured path, its
    temporary file carries the same extension, and its bytes go to the PDF
    parser, respectively the Word parser: when that parser fails, so does
    the ingestion, with the parser's message. *)
Theorem load_from_file_picks_parser E file w stem :
  Py.rfind "/" stem = (-1)%Z ->
  Py.all_dots stem = false ->
  (name file = stem +:+ ".pdf" ->
   structured file /\
   temp_path_of E file w = mkstemp E (fs w) +:+ ".pdf" /\
   loader_of (temp_path_of E file w) = UnstructuredPDFLoader (temp_path_of E file w) /\
   forall msg,
     parse E (UnstructuredPDFLoader (mkstemp E (fs w) +:+ ".pdf")) (Some (getvalue file))
     = Raise msg ->
     fst (load_from_file E file w) = Ok ("File loading error: " +:+ msg)) /\
  (name file = stem +:+ ".docx" ->
   structured file /\
   temp_path_of E file w = mkstemp E (fs w) +:+ ".docx" /\
   loader_of (temp_path_of E file w)
   = UnstructuredWordDocumentLoader (temp_path_of E file w) /\
   forall msg,
     parse E (UnstructuredWordDocumentLoader (mkstemp E (fs w) +:+ ".docx"))
       (Some (getvalue file))
     = Raise msg ->
     fst (load_from_file E file w) = Ok ("File loading error: " +:+ msg)).
Proof.
  intros Hsep Hdots. split; intros Hname.
  - assert (Hs : structured file).
    { unfold structured. rewrite Hname.
      rewrite !endswith_app by (vm_compute; lia). reflexivity. }
    assert (Htmp : temp_path_of E file w = mkstemp E (fs w) +:+ ".pdf").
    { unfold temp_path_of. now rewrite Hname, splitext_ext_pdf, Hdots. }
    assert (Hloader : loader_of (temp_path_of E file w)
                      = UnstructuredPDFLoader (temp_path_of E file w)).
    { rewrite Htmp. unfold loader_of.
      rewrite endswith_app by (vm_compute; lia). reflexivity. }
    repeat split; try assumption.
    intros msg Hparse. apply load_from_file_parser_failure; [exact Hs|].
    now rewrite Hloader, Htmp.
  - assert (Hs : structured file).
    { unfold structured. rewrite Hname.
      rewrite !endswith_app by (vm_compute; lia). reflexivity. }
    assert (Htmp : temp_path_of E file w = mkstemp E (fs w) +:+ ".docx").
    { unfold temp_path_of. now rewrite Hname, splitext_ext_docx, Hdots. }
    assert (Hloader : loader_of (temp_path_of E file w)
                      = UnstructuredWordDocumentLoader (temp_path_of E file w)).
    { rewrite Htmp. unfold loader_of.
      rewrite !endswith_app by (vm_compute; lia). reflexivity. }
    repeat split; try assumption.
    intros msg Hparse. apply load_from_file_parser_failure; [exact Hs|].
    now rewrite Hloader, Htmp.
Qed.

Lemma load_from_file_picks_parser_witness :
  fst (load_from_file Demo.collaborators Demo.empty_pdf Demo.fresh)
  = Ok "File loading error: file is empty".
Proof.
  refine (proj2 (proj2 (proj2
            (proj1 (load_from_file_picks_parser Demo.collaborators Demo.empty_pdf
                      Demo.fresh "empty" _ _) _)))
            "file is empty" _).
  - reflexivity.
  - reflexivity.
  - reflexivity.
  - reflexivity.
Defined.

(** ** The answer backends *)

(** X13: [GeminiQA.answer_question] never raises and leaves the loader and
    the files alone.  Without a model the answer is
    "Gemini model not initialized"; when the model call or the reading of
    [response.text] raises, it is "Error generating response: " and the
    message; when the response has no [text], it is "No response generated";
    otherwise it is the text of the response to the prompt built from the
    context and the question. *)
Theorem GeminiQA_answer_question_never_raises gemini question context w :
  exists answer,
    fst (GeminiQA_answer_question gemini question context w) = Ok answer /\
    self (snd (GeminiQA_answer_question gemini question context w)) = self w /\
    fs (snd (GeminiQA_answer_question gemini question context w)) = fs w /\
    match model gemini with
    | None => answer = "Gemini model not initialized"
    | Some generate_content =>
        match generate_content (gemini_prompt question context) with
        | Raise msg => answer = "Error generating response: " +:+ msg
        | Ok response =>
            match response_text response with
            | Present value => answer = value
            | Absent => answer = "No response generated"
            | Failing msg => answer = "Error generating response: " +:+ msg
            end
        end
    end.
Proof.
  unfold GeminiQA_answer_question, try_except, bind, call, hasattr_text, getattr_text,
    ret, raise, print, emit.
  destruct (model gemini) as [generate_content|]; [|eexists; repeat split].
  destruct (generate_content (gemini_prompt question context)) as [response|msg];
    [|eexists; repeat split].
  destruct (response_text response) as [value| |msg]; eexists; repeat split.
Qed.

(** X14: [HuggingFaceQA.answer_question] never raises and leaves the
    loader and the files alone; when the pipeline returns a result, that
    result is handed back as it is and nothing is printed. *)
Theorem answer_question_never_raises hf question context w :
  (exists result,
      fst (answer_question hf question context w) = Ok result /\
      self (snd (answer_question hf question context w)) = self w /\
      fs (snd (answer_question hf question context w)) = fs w) /\
  (forall pipeline result,
      qa_pipeline hf = Some pipeline ->
      pipeline question context = Ok result ->
      answer_question hf question context w = (Ok result, w)).
Proof.
  unfold answer_question, try_except, bind, call, ret, print, emit. split.
  - destruct (qa_pipeline hf) as [pipeline|]; [|eexists; repeat split].
    destruct (pipeline question context) as [result|msg]; eexists; repeat split.
  - intros pipeline result -> Hresult. now rewrite Hresult.
Qed.

Lemma answer_question_never_raises_witness :
  answer_question {| qa_pipeline := Some (fun _ _ => Ok Fixture.span) |}
    "When is lunch?" "Lunch at noon." Demo.fresh
  = (Ok Fixture.span, Demo.fresh).
Proof.
  apply (proj2 (answer_question_never_raises
                  {| qa_pipeline := Some (fun _ _ => Ok Fixture.span) |}
                  "When is lunch?" "Lunch at noon." Demo.fresh)
           (fun _ _ => Ok Fixture.span) Fixture.span); reflexivity.
Defined.

(** X15: a backend whose model could not be set up is still constructed:
    the constructor prints the reason and stores no model, and from then on
    every question gets the not-initialized answer (with score 0.0 from the
    extractive backend). *)
Theorem backend_without_model A w msg :
  (get_hf_pipeline A = Raise msg ->
   exists hf,
     HuggingFaceQA_new A w
     = (Ok hf, {| self := self w; fs := fs w;
                  events := events w
                            ++ [Printed ("Failed to initialize QA pipeline: " +:+ msg)] |})
     /\ forall question context w',
          fst (answer_question hf question context w')
          = Ok {[ "answer" := PStr "QA pipeline not initialized";
                  "score" := PFloat 0 ]}) /\
  (forall model_name,
      new_generative_model A model_name = Raise msg ->
      exists gemini,
        GeminiQA_new A model_name w
        = (Ok gemini,
           {| self := self w; fs := fs w;
              events := events w
                        ++ [Printed ("Error initializing Gemini model: " +:+ msg)] |})
        /\ forall question context w',
             fst (GeminiQA_answer_question gemini question context w')
             = Ok "Gemini model not initialized").
Proof.
  split.
  - intros Hfail. exists {| qa_pipeline := None |}. split; [|reflexivity].
    unfold HuggingFaceQA_new, try_except, bind, call. now rewrite Hfail.
  - intros model_name Hfail.
    exists {| gemini_model_name := model_name; model := None |}. split; [|reflexivity].
    unfold GeminiQA_new, try_except, bind, call. now rewrite Hfail.
Qed.

Lemma backend_without_model_witness :
  (exists hf,
      HuggingFaceQA_new Fixture.offline Demo.fresh
      = (Ok hf, {| self := init; fs := ∅;
                   events := [Printed "Failed to initialize QA pipeline: model is not cached"] |})
      /\ forall question context w',
           fst (answer_question hf question context w')
           = Ok {[ "answer" := PStr "QA pipeline not initialized";
                   "score" := PFloat 0 ]}).
Proof.
  apply (proj1 (backend_without_model Fixture.offline Demo.fresh "model is not cached")).
  reflexivity.
Defined.

(** ** The script *)

Lemma gemini_returns gemini question context w :
  exists answer w',
    GeminiQA_answer_question gemini question context w = (Ok answer, w') /\
    self w' = self w /\ fs w' = fs w.
Proof.
  unfold GeminiQA_answer_question, try_except, bind, call, hasattr_text, getattr_text,
    ret, raise, print, emit.
  destruct (model gemini) as [generate_content|]; [|do 2 eexists; repeat split].
  destruct (generate_content (gemini_prompt question context)) as [response|msg];
    [|do 2 eexists; repeat split].
  destruct (response_text response) as [value| |msg]; do 2 eexists; repeat split.
Qed.

Lemma hf_returns hf question context w :
  exists result w',
    answer_question hf question context w = (Ok result, w') /\
    self w' = self w /\ fs w' = fs w.
Proof.
  unfold answer_question, try_except, bind, call, ret, print, emit.
  destruct (qa_pipeline hf) as [pipeline|]; [|do 2 eexists; repeat split].
  destruct (pipeline question context) as [result|msg]; do 2 eexists; repeat split.
Qed.

Lemma extract_knowledge_returns A hf gemini model_option question document w :
  exists shown w',
    extract_knowledge A hf gemini model_option question document w = (Ok shown, w') /\
    self w' = self w /\ fs w' = fs w /\
    forall body, ~ In (st_warning body) shown.
Proof.
  unfold extract_knowledge, try_except, bind at 1.
  destruct (String.eqb model_option "Google Gemini").
  - unfold bind at 1.
    destruct (gemini_returns gemini question document w) as (answer & w' & -> & Hs & Hf).
    cbn. do 2 eexists. repeat split; try eassumption.
    intros body Hin. repeat (destruct Hin as [Hin|Hin]; [discriminate|]). exact Hin.
  - unfold bind at 1.
    destruct (hf_returns hf question document w) as (result & w' & -> & Hs & Hf).
    unfold getitem, bind, call, ret, raise.
    destruct (result !! "answer") as [answer|].
    + destruct (format_2f A _) as [confidence|msg]; cbn.
      * do 2 eexists. repeat split; try eassumption.
        intros body Hin. repeat (destruct Hin as [Hin|Hin]; [discriminate|]). exact Hin.
      * do 2 eexists. repeat split; try eassumption.
        intros body [Hin|[]]. discriminate.
    + cbn. do 2 eexists. repeat split; try eassumption.
      intros body [Hin|[]]. discriminate.
Qed.

(** X16: with the Gemini backend selected the answer step never reports
    an extraction error: whatever [GeminiQA.answer_question] returns, also
    its error texts, is shown as the answer under "Answer extracted!".  The
    context written to the activity log is the document cut to 500
    characters plus "...", at most 503 characters. *)
Theorem extract_knowledge_gemini_always_succeeds A hf gemini question document w :
  exists answer,
    fst (GeminiQA_answer_question gemini question document w) = Ok answer /\
    fst (extract_knowledge A hf gemini "Google Gemini" question document w)
    = Ok ([ st_success "Answer extracted!";
            st_markdown (PStr "### Answer:");
            st_markdown (PStr answer) ]
          ++ log_qa_activity question (truncate document 500) (PStr answer)
               "Google Gemini") /\
    Py.len (truncate document 500) <= 503.
Proof.
  destruct (gemini_returns gemini question document w) as (answer & w' & Hret & _).
  exists answer. repeat split.
  - now rewrite Hret.
  - unfold extract_knowledge, try_except, bind at 1.
    change (String.eqb "Google Gemini" "Google Gemini") with true. cbv iota.
    unfold bind at 1. rewrite Hret. reflexivity.
  - pose proof (length_truncate document 500). unfold ellipsis, Py.len in *.
    cbn [String.length] in *. lia.
Qed.

(** X17: with the extractive backend selected, a result without the key
    [answer] makes the answer step show
    "An error occurred during knowledge extraction: 'answer'" and nothing
    else. *)
Theorem extract_knowledge_missing_answer A hf gemini model_option question document w
    result w' :
  String.eqb model_option "Google Gemini" = false ->
  answer_question hf question document w = (Ok result, w') ->
  result !! "answer" = None ->
  extract_knowledge A hf gemini model_option question document w
  = (Ok [ st_error "An error occurred during knowledge extraction: 'answer'" ], w').
Proof.
  intros Hoption Hresult Hmissing.
  unfold extract_knowledge, try_except, bind at 1. rewrite Hoption.
  unfold bind at 1. rewrite Hresult.
  unfold getitem, bind, raise. rewrite Hmissing. reflexivity.
Qed.

Lemma extract_knowledge_missing_answer_witness :
  extract_knowledge Fixture.services
    {| qa_pipeline := Some (fun _ _ => Ok {[ "score" := PFloat (9 # 10) ]}) |}
    Fixture.blocked_gemini "Hugging Face Transformers" "When is lunch?" "Lunch at noon."
    Demo.fresh
  = (Ok [ st_error "An error occurred during knowledge extraction: 'answer'" ],
     Demo.fresh).
Proof.
  apply (extract_knowledge_missing_answer Fixture.services
           {| qa_pipeline := Some (fun _ _ => Ok {[ "score" := PFloat (9 # 10) ]}) |}
           Fixture.blocked_gemini "Hugging Face Transformers" "When is lunch?"
           "Lunch at noon." Demo.fresh {[ "score" := PFloat (9 # 10) ]} Demo.fresh);
    reflexivity.
Defined.

Lemma bind_ok {X Y} (m : M X) (k : X -> M Y) w a w' :
  m w = (Ok a, w') -> bind m k w = k a w'.
Proof. intros Hm. unfold bind. now rewrite Hm. Qed.

Lemma truthy_nonempty (s : string) : s <> "" -> truthy s = true.
Proof.
  intros Hne. unfold truthy. destruct (String.eqb_spec s ""); [contradiction|reflexivity].
Qed.

Lemma HuggingFaceQA_new_returns A w :
  exists hf w',
    HuggingFaceQA_new A w = (Ok hf, w') /\ self w' = self w /\ fs w' = fs w.
Proof.
  unfold HuggingFaceQA_new, try_except, bind, call, ret, print, emit.
  destruct (get_hf_pipeline A); do 2 eexists; repeat split.
Qed.

Lemma GeminiQA_new_returns A model_name w :
  exists gemini w',
    GeminiQA_new A model_name w = (Ok gemini, w') /\ self w' = self w /\ fs w' = fs w.
Proof.
  unfold GeminiQA_new, try_except, bind, call, ret, print, emit.
  destruct (new_generative_model A model_name); do 2 eexists; repeat split.
Qed.


Lemma DocumentLoader_new_ok A w :
  new_ddgs A = Ok tt ->
  DocumentLoader_new A w = (Ok tt, {| self := init; fs := fs w; events := events w |}).
Proof.
  intros Hddgs. unfold DocumentLoader_new, bind, call, set_self. now rewrite Hddgs.
Qed.

(** X18: every run of the script builds a new [DocumentLoader]: when the
    search session can be opened, neither what the run shows nor the state
    it ends in depends on the Document or the Index left by an earlier
    run. *)
Theorem script_starts_fresh E A i w previous :
  new_ddgs A = Ok tt ->
  script E A i {| self := previous; fs := fs w; events := events w |} = script E A i w.
Proof.
  intros Hddgs. unfold script, try_except.
  now rewrite !(bind_ok _ _ _ _ _ (DocumentLoader_new_ok A _ Hddgs)).
Qed.

Lemma script_starts_fresh_witness :
  script Demo.collaborators Fixture.services (Fixture.paste "" "" false)
    {| self := self Demo.after_report; fs := fs Demo.fresh; events := events Demo.fresh |}
  = script Demo.collaborators Fixture.services (Fixture.paste "" "" false) Demo.fresh.
Proof.
  apply (script_starts_fresh Demo.collaborators Fixture.services
           (Fixture.paste "" "" false) Demo.fresh (self Demo.after_report)).
  reflexivity.
Defined.



(** X20: a click without a document (Paste Text mode with an empty text
    box, or Upload File mode without a file) shows the hint to select a
    document and the warning "No document available. ...", and nothing
    else; no loader method has run: the loader is as constructed and the
    files are untouched. *)
Theorem script_without_document E A i w :
  new_ddgs A = Ok tt ->
  (source_option i = "Paste Text" /\ user_text i = "")
  \/ (source_option i = "Upload File" /\ uploaded_file i = None) ->
  get_answer i = true ->
  fst (script E A i w)
  = Ok [ st_info "Please select or upload a document to begin.";
         st_warning "No document available. Please provide text, upload a file, or enter a search question." ]
  /\ self (snd (script E A i w)) = init
  /\ fs (snd (script E A i w)) = fs w.
Proof.
  intros Hddgs Hmode Hclick.
  destruct (HuggingFaceQA_new_returns A {| self := init; fs := fs w; events := events w |})
    as (hf & w1 & Hhf & Hself1 & Hfs1).
  destruct (GeminiQA_new_returns A "gemini-2.0-flash" w1)
    as (gemini & w2 & Hgemini & Hself2 & Hfs2).
  assert (Hscript :
    script E A i w
    = (Ok [ st_info "Please select or upload a document to begin.";
            st_warning "No document available. Please provide text, upload a file, or enter a search question." ],
       w2)).
  { unfold script, try_except.
    rewrite (bind_ok _ _ _ _ _ (DocumentLoader_new_ok A _ Hddgs)).
    rewrite (bind_ok _ _ _ _ _ Hhf), (bind_ok _ _ _ _ _ Hgemini).
    rewrite Hclick.
    destruct Hmode as [[Hsource Hempty]|[Hsource Hempty]]; rewrite Hsource, Hempty.
    - change (String.eqb "Paste Text" "Paste Text") with true.
      change (String.eqb "Paste Text" "Web Search") with false.
      change (truthy "") with false. cbv iota. cbn [negb orb].
      unfold on_get_answer. rewrite Hsource.
      change (String.eqb "Paste Text" "Web Search") with false.
      change (truthy "") with false. reflexivity.
    - change (String.eqb "Upload File" "Paste Text") with false.
      change (String.eqb "Upload File" "Upload File") with true.
      change (String.eqb "Upload File" "Web Search") with false.
      change (truthy "") with false. cbv iota. cbn [negb orb].
      unfold on_get_answer. rewrite Hsource.
      change (String.eqb "Upload File" "Web Search") with false.
      change (truthy "") with false. reflexivity. }
  rewrite Hscript. cbn [fst snd]. rewrite Hself2, Hself1, Hfs2, Hfs1. repeat split.
Qed.

Lemma script_without_document_witness :
  fst (script Demo.collaborators Fixture.offline (Fixture.paste "" "When is lunch?" true)
         Demo.after_report)
  = Ok [ st_info "Please select or upload a document to begin.";
         st_warning "No document available. Please provide text, upload a file, or enter a search question." ]
  /\ self (snd (script Demo.collaborators Fixture.offline
                  (Fixture.paste "" "When is lunch?" true) Demo.after_report))
     = init
  /\ fs (snd (script Demo.collaborators Fixture.offline
                (Fixture.paste "" "When is lunch?" true) Demo.after_report))
     = fs Demo.after_report.
Proof.
  apply (script_without_document Demo.collaborators Fixture.offline
           (Fixture.paste "" "When is lunch?" true) Demo.after_report).
  - reflexivity.
  - left. split; reflexivity.
  - reflexivity.
Defined.




Lemma HuggingFaceQA_new_any_world A w1 w2 :
  fst (HuggingFaceQA_new A w1) = fst (HuggingFaceQA_new A w2).
Proof.
  unfold HuggingFaceQA_new, try_except, bind, call.
  destruct (get_hf_pipeline A); reflexivity.
Qed.

Lemma GeminiQA_new_any_world A model_name w1 w2 :
  fst (GeminiQA_new A model_name w1) = fst (GeminiQA_new A model_name w2).
Proof.
  unfold GeminiQA_new, try_except, bind, call.
  destruct (new_generative_model A model_name); reflexivity.
Qed.

(** X22: in Paste Text mode with a non-empty text, the pasted text is
    displayed under the source "User input".  A click with an empty
    question adds the warning "Please enter a question." and nothing else;
    a click with a question runs the answer step of the constructed
    backends on the whole pasted text as context. *)
Theorem script_paste_text E A i w :
  new_ddgs A = Ok tt ->
  source_option i = "Paste Text" ->
  user_text i <> "" ->
  get_answer i = true ->
  exists shown,
    fst (script E A i w)
    = Ok (st_markdown (PStr "**Source:** User input")
          :: st_text_area (user_text i)
          :: shown) /\
    current_document (self (snd (script E A i w))) = user_text i /\
    (user_question i = "" -> shown = [ st_warning "Please enter a question." ]) /\
    (user_question i <> "" ->
     exists hf gemini w',
       fst (HuggingFaceQA_new A w) = Ok hf /\
       fst (GeminiQA_new A "gemini-2.0-flash" w) = Ok gemini /\
       fst (extract_knowledge A hf gemini (model_option i) (user_question i)
              (user_text i) w')
       = Ok shown).
Proof.
  intros Hddgs Hsource Htext Hclick.
  destruct (HuggingFaceQA_new_returns A {| self := init; fs := fs w; events := events w |})
    as (hf & w1 & Hhf & Hself1 & Hfs1).
  destruct (GeminiQA_new_returns A "gemini-2.0-flash" w1)
    as (gemini & w2 & Hgemini & Hself2 & Hfs2).
  set (w3 := {| self := {| current_document := user_text i;
                           document_source := "User input";
                           vector_store := vector_store (self w2);
                           embeddings := embeddings (self w2) |};
                fs := fs w2; events := events w2 |}).
  assert (Hloaded :
    (let* document := load_from_text (user_text i) in ret (document, @nil UI)) w2
    = (Ok (user_text i, []), w3)) by reflexivity.
  assert (Hcontent :
    (let* source := get_document_source in
     ret [ st_markdown (PStr ("**Source:** " +:+ source)); st_text_area (user_text i) ]) w3
    = (Ok [ st_markdown (PStr "**Source:** User input"); st_text_area (user_text i) ], w3))
    by reflexivity.
  assert (Hasked : exists shown w4,
    (let* answered := on_get_answer E A hf gemini i (user_text i) in
     ret (snd answered)) w3 = (Ok shown, w4) /\
    self w4 = self w3 /\
    (user_question i = "" -> shown = [ st_warning "Please enter a question." ]) /\
    (user_question i <> "" ->
     exists hf gemini w',
       fst (HuggingFaceQA_new A w) = Ok hf /\
       fst (GeminiQA_new A "gemini-2.0-flash" w) = Ok gemini /\
       fst (extract_knowledge A hf gemini (model_option i) (user_question i)
              (user_text i) w')
       = Ok shown)).
  { unfold on_get_answer. rewrite Hsource.
    change (String.eqb "Paste Text" "Web Search") with false. cbn [andb].
    unfold bind at 2. unfold ret at 1. cbv beta iota.
    rewrite (truthy_nonempty _ Htext). cbn [negb].
    destruct (String.eqb_spec (user_question i) "") as [Hq|Hq].
    - unfold truthy. rewrite Hq. change (String.eqb "" "") with true. cbn [negb].
      do 2 eexists. split; [reflexivity|]. split; [reflexivity|].
      split; [reflexivity|]. congruence.
    - rewrite (truthy_nonempty _ Hq). cbn [negb].
      destruct (extract_knowledge_returns A hf gemini (model_option i)
                  (user_question i) (user_text i) w3)
        as (shown & w4 & Hshown & Hself & _ & _).
      unfold bind at 1. rewrite (bind_ok _ _ _ _ _ Hshown).
      do 2 eexists. split; [reflexivity|]. split; [exact Hself|].
      split; [congruence|]. intros _. exists hf, gemini, w3.
      rewrite (HuggingFaceQA_new_any_world A w
                 {| self := init; fs := fs w; events := events w |}), Hhf.
      rewrite (GeminiQA_new_any_world A "gemini-2.0-flash" w w1), Hgemini.
      now rewrite Hshown. }
  destruct Hasked as (shown & w4 & Hasked & Hself & Hempty & Hanswer).
  assert (Hscript :
    script E A i w
    = (Ok (st_markdown (PStr "**Source:** User input")
           :: st_text_area (user_text i) :: shown), w4)).
  { unfold script, try_except.
    rewrite (bind_ok _ _ _ _ _ (DocumentLoader_new_ok A _ Hddgs)).
    rewrite (bind_ok _ _ _ _ _ Hhf), (bind_ok _ _ _ _ _ Hgemini).
    rewrite Hsource, Hclick.
    change (String.eqb "Paste Text" "Paste Text") with true.
    change (String.eqb "Paste Text" "Web Search") with false.
    cbv iota. cbn [negb orb].
    rewrite (truthy_nonempty _ Htext).
    rewrite (bind_ok _ _ _ _ _ Hloaded). cbn [fst snd].
    rewrite (truthy_nonempty _ Htext).
    rewrite (bind_ok _ _ _ _ _ Hcontent), (bind_ok _ _ _ _ _ Hasked).
    reflexivity. }
  exists shown. rewrite Hscript. cbn [fst snd]. rewrite Hself.
  repeat split; assumption.
Qed.

Lemma script_paste_text_witness :
  exists shown,
    fst (script Demo.collaborators Fixture.services
           (Fixture.paste "Lunch at noon." "" true) Demo.fresh)
    = Ok (st_markdown (PStr "**Source:** User input")
          :: st_text_area "Lunch at noon."
          :: shown) /\
    current_document
      (self (snd (script Demo.collaborators Fixture.services
                    (Fixture.paste "Lunch at noon." "" true) Demo.fresh)))
    = "Lunch at noon." /\
    (user_question (Fixture.paste "Lunch at noon." "" true) = "" ->
     shown = [ st_warning "Please enter a question." ]) /\
    (user_question (Fixture.paste "Lunch at noon." "" true) <> "" ->
     exists hf gemini w',
       fst (HuggingFaceQA_new Fixture.services Demo.fresh) = Ok hf /\
       fst (GeminiQA_new Fixture.services "gemini-2.0-flash" Demo.fresh) = Ok gemini /\
       fst (extract_knowledge Fixture.services hf gemini
              (model_option (Fixture.paste "Lunch at noon." "" true))
              (user_question (Fixture.paste "Lunch at noon." "" true))
              (user_text (Fixture.paste "Lunch at noon." "" true)) w')
       = Ok shown).
Proof.
  apply (script_paste_text Demo.collaborators Fixture.services
           (Fixture.paste "Lunch at noon." "" true) Demo.fresh).
  - reflexivity.
  - reflexivity.
  - discriminate.
  - reflexivity.
Defined.
